(** * Join-result materialisation in [back-end/app/api/utils.py]

    A shallow embedding of the two row-grouping functions of the back end,
    [get_servers_on_cluster] (the loop that groups the fetched join rows by
    server) and [process_user_data], together with the properties the
    specification states about them, and of the routes of
    [back-end/app/api/routes.py] that read the container dictionary.

    Rows are the name-indexed records a [DictCursor] returns; they are
    modelled as finite maps from column names to Python scalars.  The
    [servers] dictionary of [get_servers_on_cluster] is a Python [dict],
    whose iteration order is insertion order: it is modelled as an
    association list in insertion order.  A missing column raises
    [KeyError]; this is modelled with an explicit result type. *)

From stdpp Require Import gmap strings list fin_maps.
From Stdlib Require Import ZArith.

Local Open Scope string_scope.
Local Open Scope list_scope.
Local Open Scope nat_scope.

(** ** Python values *)

(** The scalars a row can hold: [None] (SQL NULL), a string, an integer or a
    timestamp (a [datetime], represented by its position on the time line). *)
Inductive value : Type :=
  | VNone
  | VStr (s : string)
  | VInt (n : Z)
  | VTime (t : Z).

#[global] Instance value_eq_dec : EqDecision value.
Proof. solve_decision. Defined.

#[global] Instance value_inhabited : Inhabited value := populate VNone.

(** Truth value of a scalar, as tested by [if v:].  [None], [0] and the
    empty string are false; a [datetime] is always true. *)
Definition truthy (v : value) : bool :=
  match v with
  | VNone => false
  | VStr s => negb (String.eqb s "")
  | VInt n => negb (n =? 0)%Z
  | VTime _ => true
  end.

(** ** Exceptions *)

Inductive exn : Type :=
  | KeyError (key : value).

Inductive res (A : Type) : Type :=
  | Ok (a : A)
  | Raise (e : exn).
Arguments Ok {A} a.
Arguments Raise {A} e.

Definition res_bind {A B} (m : res A) (k : A → res B) : res B :=
  match m with
  | Ok a => k a
  | Raise e => Raise e
  end.

Notation "'let!' x ':=' m 'in' k" := (res_bind m (λ x, k))
  (at level 10, x name, m at level 100, k at level 200,
   format "'[v' 'let!'  x  ':='  m  'in' '/' k ']'").

(** [for row in rows: state = body(state, row)], stopping at the first
    exception. *)
Fixpoint for_each {S A} (body : S → A → res S) (s : S) (l : list A) : res S :=
  match l with
  | [] => Ok s
  | x :: l' => let! s' := body s x in for_each body s' l'
  end.

(** ** Rows *)

Abbreviation Row := (gmap string value).

(** [row[key]] *)
Definition getitem (row : Row) (key : string) : res value :=
  match row !! key with
  | Some v => Ok v
  | None => Raise (KeyError (VStr key))
  end.

(** [key.startswith(p)] *)
Definition startswith (key p : string) : bool := String.prefix p key.

(** ** Insertion-ordered dictionaries *)

Section odict.
Context {K V : Type} `{!EqDecision K}.

(** [k in d] *)
Definition od_mem (k : K) (d : list (K * V)) : bool :=
  bool_decide (k ∈ d.*1).

(** [d[k]] as an option; [None] stands for [KeyError]. *)
Fixpoint od_get (k : K) (d : list (K * V)) : option V :=
  match d with
  | [] => None
  | (k', v) :: d' => if decide (k = k') then Some v else od_get k d'
  end.

(** [d[k] = v]: a present key keeps its position, a new key goes last. *)
Fixpoint od_set (k : K) (v : V) (d : list (K * V)) : list (K * V) :=
  match d with
  | [] => [(k, v)]
  | (k', v') :: d' =>
      if decide (k = k') then (k, v) :: d' else (k', v') :: od_set k v d'
  end.

(** [list(d.values())] *)
Definition od_values (d : list (K * V)) : list V := d.*2.
End odict.

(** ** Records built by the two functions *)

(** The dictionary built for a server at lines 49-55. *)
Record Server : Type := mkServer {
  srv_id : value;
  srv_created_at : value;
  srv_updated_at : value;
  srv_cluster_name : value;
  srv_clients : list Row;
}.

(** The dictionary built for a client at lines 87-93. *)
Record Client : Type := mkClient {
  cl_id : value;
  cl_name : value;
  cl_user_id : value;
  cl_created_at : value;
  cl_updated_at : value;
}.

(** The dictionary built for the user at lines 76-83. *)
Record User : Type := mkUser {
  usr_id : value;
  usr_name : value;
  usr_email : value;
  usr_emailVerified : value;
  usr_image : value;
  usr_clients : list Client;
}.

(** ** [get_servers_on_cluster], lines 44-61 *)

(** [{key: row[key] for key in row.keys() if key.startswith("client_")}] *)
Definition client_of_row (row : Row) : Row :=
  filter (λ kv : string * value, Is_true (startswith kv.1 "client_")) row.

Definition od_getitem (d : list (value * Server)) (k : value) : res Server :=
  match od_get k d with
  | Some s => Ok s
  | None => Raise (KeyError k)
  end.

(** [servers[server_id]["clients"].append(client)] *)
Definition append_client (client : Row) (s : Server) : Server :=
  mkServer (srv_id s) (srv_created_at s) (srv_updated_at s)
           (srv_cluster_name s) (srv_clients s ++ [client]).

(** One iteration of the loop at lines 46-58. *)
Definition group_step (servers : list (value * Server)) (row : Row)
    : res (list (value * Server)) :=
  let! server_id := getitem row "id" in
  let! servers :=
    (if od_mem server_id servers then Ok servers
     else
       let! created_at := getitem row "created_at" in
       let! updated_at := getitem row "updated_at" in
       let! cluster_name := getitem row "cluster_name" in
       Ok (od_set server_id
             (mkServer server_id created_at updated_at cluster_name [])
             servers)) in
  let client := client_of_row row in
  let! s := od_getitem servers server_id in
  Ok (od_set server_id (append_client client s) servers).

(** The grouping of the fetched rows [result]. *)
Definition get_servers_on_cluster (result : list Row) : res (list Server) :=
  let! servers := for_each group_step [] result in
  Ok (od_values servers).

(** ** [process_user_data], lines 72-96 *)

(** One iteration of the loop at lines 85-94. *)
Definition user_step (clients : list Client) (row : Row) : res (list Client) :=
  let! client_id := getitem row "client_id" in
  if truthy client_id then
    let! name := getitem row "name" in
    let! user_id := getitem row "user_id" in
    let! created_at := getitem row "created_at" in
    let! updated_at := getitem row "updated_at" in
    Ok (clients ++ [mkClient client_id name user_id created_at updated_at])
  else Ok clients.

Definition process_user_data (user_data : list Row) : res (option User) :=
  match user_data with
  | [] => Ok None
  | row0 :: _ =>
      let! id := getitem row0 "id" in
      let! name := getitem row0 "name" in
      let! email := getitem row0 "email" in
      let! emailVerified := getitem row0 "emailVerified" in
      let! image := getitem row0 "image" in
      let! clients := for_each user_step [] user_data in
      Ok (Some (mkUser id name email emailVerified image clients))
  end.

(** * The routes of [back-end/app/api/routes.py]

    The routes below read the module-level dictionary [client_docker_map],
    from client ids to containers; it is passed as an argument.  Of a
    container only the attributes [name] and [status] are read. *)

Record Container : Type := mkContainer {
  container_name : string;
  container_status : string;
}.

(** [execute_query], lines 34-42.  A container object is always true under
    [if container:], so the test only separates a stored container from the
    [None] of [dict.get]. *)
Definition execute_query (client_docker_map : gmap string Container)
    (client_id query : string) : string :=
  match client_docker_map !! client_id with
  | Some container =>
      String.concat "" ["Executed query '"; query; "' on container '";
                        container_name container; "' for client_id '";
                        client_id; "'"]
  | None =>
      String.concat "" ["No container found for client_id '"; client_id; "'"]
  end.

(** [get_mappings], lines 44-47. *)
Definition get_mappings (client_docker_map : gmap string Container)
    : gmap string string :=
  container_name <$> client_docker_map.

(** [get_client_status], lines 49-59. *)
Definition get_client_status (client_docker_map : gmap string Container)
    (client_id : string) : gmap string string :=
  let status : gmap string string := ∅ in
  match client_docker_map !! client_id with
  | Some container =>
      let status := <["created" := "Yes"]> status in
      <["running" := if String.eqb (container_status container) "running"
                     then "Yes" else "No"]> status
  | None =>
      let status := <["created" := "No"]> status in
      <["running" := "No"]> status
  end.

(** * Notions used in the statements *)

(** ** First-seen order *)

Section first_seen_def.
Context {A : Type} `{!EqDecision A}.

(** The distinct elements of a list, in the order of their first
    occurrence. *)
Definition first_seen l : list A :=
  foldl (λ acc x, if decide (x ∈ acc) then acc else acc ++ [x]) [] l.
End first_seen_def.

(** ** Server grouping *)

(** The [id] column of a row, and the ids of a row sequence. *)
Definition row_id (row : Row) : option value := row !! "id".
Definition row_ids (rows : list Row) : list value := omap row_id rows.

(** The rows carrying the server id [k], in input order. *)
Definition rows_of (k : value) (rows : list Row) : list Row :=
  filter (λ row, row_id row = Some k) rows.

(** The columns the loop reads from a row of the server query. *)
Definition server_columns : list string :=
  ["id"; "created_at"; "updated_at"; "cluster_name"].

Definition has_columns (cols : list string) (row : Row) : Prop :=
  Forall (λ c, is_Some (row !! c)) cols.

(** The loop invariant: after the rows [rows], the dictionary [d] has the
    ids of [rows] as keys, in first-seen order, and the server stored under
    [k] carries [k] and one client per row of [rows] with that id. *)
Definition grouped (rows : list Row) (d : list (value * Server)) : Prop :=
  Forall (λ row, is_Some (row_id row)) rows ∧
  d.*1 = first_seen (row_ids rows) ∧
  ∀ k s, od_get k d = Some s →
    srv_id s = k ∧ srv_clients s = client_of_row <$> rows_of k rows.

(** The number of client entries over all servers of an output. *)
Definition client_total (out : list Server) : nat :=
  sum_list_with (λ s, length (srv_clients s)) out.

(** The server a row opens when its id is new, lines 49-55 and 57-58. *)
Definition server_of_row (k : value) (row : Row) : Server :=
  mkServer k (row !!! "created_at") (row !!! "updated_at")
           (row !!! "cluster_name") [client_of_row row].

(** The effect on the output of a further row whose id [k] is already
    there. *)
Definition add_client (k : value) (row : Row) (out : list Server)
    : list Server :=
  (λ s, if decide (srv_id s = k) then append_client (client_of_row row) s
        else s) <$> out.

(** ** User building *)

(** The test [if row["client_id"]:] of line 86. *)
Definition has_client (row : Row) : bool :=
  match row !! "client_id" with
  | Some v => truthy v
  | None => false
  end.

(** [child_of row c]: the client record [c] is the one lines 87-93 build
    from [row]. *)
Definition child_of (row : Row) (c : Client) : Prop :=
  row !! "client_id" = Some (cl_id c) ∧
  row !! "name" = Some (cl_name c) ∧
  row !! "user_id" = Some (cl_user_id c) ∧
  row !! "created_at" = Some (cl_created_at c) ∧
  row !! "updated_at" = Some (cl_updated_at c).

(** The same record as a function of the row, an absent column read as
    [None]. *)
Definition client_of_user_row (row : Row) : Client :=
  mkClient (row !!! "client_id") (row !!! "name") (row !!! "user_id")
           (row !!! "created_at") (row !!! "updated_at").

(** The identity fields of a user record. *)
Definition identity (u : User) : value * value * value * value * value :=
  (usr_id u, usr_name u, usr_email u, usr_emailVerified u, usr_image u).

(** The columns [process_user_data] reads: the identity columns from the
    first row, the client columns from every row. *)
Definition identity_columns : list string :=
  ["id"; "name"; "email"; "emailVerified"; "image"].
Definition client_columns : list string :=
  ["client_id"; "name"; "user_id"; "created_at"; "updated_at"].
Definition user_columns : list string := identity_columns ++ client_columns.

(** ** Sample inputs *)

Definition server_row (id : string) (client_id : value) : Row :=
  list_to_map [("id", VStr id); ("created_at", VTime 10);
               ("updated_at", VTime 20); ("cluster_name", VStr "c");
               ("client_id", client_id); ("client_name", VNone)].

Definition client_part (client_id : value) : Row :=
  list_to_map [("client_id", client_id); ("client_name", VNone)].

Definition sample_result : list Row :=
  [server_row "s1" (VStr "k1"); server_row "s1" (VStr "k2");
   server_row "s2" (VStr "k3")].

Definition sample_server1 : Server :=
  mkServer (VStr "s1") (VTime 10) (VTime 20) (VStr "c")
           [client_part (VStr "k1"); client_part (VStr "k2")].

Definition sample_server2 : Server :=
  mkServer (VStr "s2") (VTime 10) (VTime 20) (VStr "c")
           [client_part (VStr "k3")].

Definition user_row (client_id : value) (name : string) : Row :=
  list_to_map [("id", VStr "u1"); ("name", VStr name);
               ("email", VStr "a@example.org"); ("emailVerified", VNone);
               ("image", VNone); ("client_id", client_id);
               ("user_id", VStr "u1"); ("created_at", VTime 1);
               ("updated_at", VTime 2)].

Definition sample_user (clients : list Client) : User :=
  mkUser (VStr "u1") (VStr "A") (VStr "a@example.org") VNone VNone clients.

Definition sample_client (client_id : value) (name : string) : Client :=
  mkClient client_id (VStr name) (VStr "u1") (VTime 1) (VTime 2).

(** * Auxiliary facts *)

(** ** The result type and loops *)

Lemma res_bind_Ok {A B} (m : res A) (k : A → res B) b :
  res_bind m k = Ok b ↔ ∃ a, m = Ok a ∧ k a = Ok b.
Proof.
  destruct m as [a|e]; simpl; split.
  - eauto.
  - by intros (? & [= <-] & ?).
  - done.
  - by intros (? & ? & ?).
Qed.

Lemma getitem_Ok (row : Row) key v :
  getitem row key = Ok v ↔ row !! key = Some v.
Proof. unfold getitem. destruct (row !! key); naive_solver. Qed.

Lemma getitem_is_Some (row : Row) key :
  is_Some (row !! key) → ∃ v, getitem row key = Ok v.
Proof. intros [v Hv]. exists v. by apply getitem_Ok. Qed.

Lemma for_each_app {S A} (body : S → A → res S) s (l1 l2 : list A) :
  for_each body s (l1 ++ l2)
  = let! s' := for_each body s l1 in for_each body s' l2.
Proof.
  revert s. induction l1 as [|x l1 IH]; intros s; simpl; [done|].
  destruct (body s x); simpl; auto.
Qed.

Lemma for_each_snoc_Ok {S A} (body : S → A → res S) s (l : list A) x s2 :
  for_each body s (l ++ [x]) = Ok s2 ↔
  ∃ s1, for_each body s l = Ok s1 ∧ body s1 x = Ok s2.
Proof.
  rewrite for_each_app, res_bind_Ok. simpl.
  split; intros (s1 & ? & Hb); exists s1; split; try done.
  - by apply res_bind_Ok in Hb as (? & -> & [= ->]).
  - by rewrite Hb.
Qed.

(** A loop invariant: it holds of the final state of every loop that ends
    without an exception. *)
Lemma for_each_invariant {S A} (body : S → A → res S) (I : list A → S → Prop)
    s0 :
  I [] s0 →
  (∀ l s x s', I l s → body s x = Ok s' → I (l ++ [x]) s') →
  ∀ l s, for_each body s0 l = Ok s → I l s.
Proof.
  intros Hinit Hstep l. induction l as [|x l IH] using rev_ind; intros s.
  - by intros [= <-].
  - intros (s1 & Hl & Hx)%for_each_snoc_Ok. eauto.
Qed.

(** ** Insertion-ordered dictionaries *)

Section odict_facts.
Context {K V : Type} `{!EqDecision K}.
Implicit Types (k : K) (v : V) (d : list (K * V)).

Lemma od_mem_spec k d : od_mem k d = true ↔ k ∈ d.*1.
Proof. unfold od_mem. apply bool_decide_eq_true. Qed.

Lemma od_get_set k' k v d :
  od_get k' (od_set k v d) = if decide (k' = k) then Some v else od_get k' d.
Proof.
  induction d as [|[k0 v0] d IH]; simpl.
  - by destruct (decide (k' = k)).
  - destruct (decide (k = k0)) as [->|]; simpl.
    + by destruct (decide (k' = k0)).
    + rewrite IH. destruct (decide (k' = k0)) as [->|]; [|done].
      by rewrite decide_False by done.
Qed.

Lemma od_set_keys k v d :
  (od_set k v d).*1 = if decide (k ∈ d.*1) then d.*1 else d.*1 ++ [k].
Proof.
  induction d as [|[k0 v0] d IH]; csimpl; [done|].
  destruct (decide (k = k0)) as [->|Hne]; csimpl.
  - rewrite decide_True; [done|]. apply elem_of_cons; auto.
  - rewrite IH. destruct (decide (k ∈ d.*1)) as [Hd|Hd].
    + rewrite decide_True; [done|]. apply elem_of_cons; auto.
    + rewrite decide_False; [done|]. by intros [?|?]%elem_of_cons.
Qed.

Lemma od_get_is_Some k d : k ∈ d.*1 → is_Some (od_get k d).
Proof.
  induction d as [|[k0 v0] d IH]; simpl.
  - by intros ?%elem_of_nil.
  - intros Hin. destruct (decide (k = k0)); [eauto|].
    apply IH. by apply elem_of_cons in Hin as [?|?].
Qed.

Lemma od_get_of_elem k v d : NoDup d.*1 → (k, v) ∈ d → od_get k d = Some v.
Proof.
  induction d as [|[k0 v0] d IH]; simpl.
  - by intros _ ?%elem_of_nil.
  - intros [Hk0 Hnd]%NoDup_cons [[= -> ->]|Hin]%elem_of_cons.
    + by rewrite decide_True.
    + rewrite decide_False; [by apply IH|].
      intros ->. apply Hk0. apply list_elem_of_fmap. by exists (k0, v).
Qed.
End odict_facts.

(** ** First-seen order *)

Section first_seen.
Context {A : Type} `{!EqDecision A}.
Implicit Types (l : list A).

Lemma first_seen_snoc l x :
  first_seen (l ++ [x])
  = if decide (x ∈ first_seen l) then first_seen l else first_seen l ++ [x].
Proof. unfold first_seen. by rewrite foldl_app. Qed.

Lemma elem_of_first_seen l x : x ∈ first_seen l ↔ x ∈ l.
Proof.
  induction l as [|y l IH] using rev_ind; [done|].
  rewrite first_seen_snoc. destruct (decide (y ∈ first_seen l)) as [Hy|Hy].
  - rewrite elem_of_app, list_elem_of_singleton, IH.
    split; [by left|]. intros [?| ->]; [done|]. by apply IH.
  - by rewrite !elem_of_app, IH.
Qed.

Lemma NoDup_first_seen l : NoDup (first_seen l).
Proof.
  induction l as [|y l IH] using rev_ind; [constructor|].
  rewrite first_seen_snoc. destruct (decide (y ∈ first_seen l)); [done|].
  apply NoDup_app. split_and!; [done| |apply NoDup_singleton].
  by intros x ? ->%list_elem_of_singleton.
Qed.

Lemma length_first_seen l : length (first_seen l) = length (remove_dups l).
Proof.
  apply Permutation_length, NoDup_Permutation.
  - apply NoDup_first_seen.
  - apply NoDup_remove_dups.
  - intros x. by rewrite elem_of_first_seen, elem_of_remove_dups.
Qed.

Lemma first_seen_find l i a :
  first_seen l !! i = Some a → ∃ fa, list_find (λ x, x = a) l = Some (fa, a).
Proof.
  intros Hi%list_elem_of_lookup_2. apply (proj1 (elem_of_first_seen _ _)) in Hi.
  destruct (list_find_elem_of (λ x, x = a) l a) as [[fa y] Hy]; [done..|].
  exists fa. by pose proof Hy as (_ & -> & _)%list_find_Some.
Qed.

(** Positions in [first_seen l] are ordered as the first occurrences in
    [l]. *)
Lemma first_seen_order l i j a b fa fb :
  first_seen l !! i = Some a → first_seen l !! j = Some b →
  list_find (λ x, x = a) l = Some (fa, a) →
  list_find (λ x, x = b) l = Some (fb, b) →
  i < j ↔ fa < fb.
Proof.
  revert i j a b fa fb.
  induction l as [|y l IH] using rev_ind; intros i j a b fa fb; [done|].
  rewrite first_seen_snoc.
  assert (Hold : ∀ n c fc, first_seen l !! n = Some c →
    list_find (λ x, x = c) (l ++ [y]) = Some (fc, c) →
    list_find (λ x, x = c) l = Some (fc, c) ∧ fc < length l).
  { intros n c fc Hn Hfc. destruct (first_seen_find _ _ _ Hn) as [fc' Hfc'].
    rewrite (list_find_app_l _ _ _ _ _ Hfc') in Hfc.
    injection Hfc as <-. split; [done|].
    apply list_find_Some in Hfc' as (?%lookup_lt_Some & _). done. }
  destruct (decide (y ∈ first_seen l)) as [Hy|Hy].
  { intros Hi Hj Ha Hb.
    destruct (Hold _ _ _ Hi Ha), (Hold _ _ _ Hj Hb). eauto. }
  assert (Hnew : ∀ fc,
    list_find (λ x, x = y) (l ++ [y]) = Some (fc, y) → length l ≤ fc).
  { intros fc [Hfc|(? & _)]%list_find_app_Some; [|done].
    apply list_find_Some in Hfc as (Hin%list_elem_of_lookup_2 & _).
    by apply (proj2 (elem_of_first_seen _ _)) in Hin. }
  intros [Hi|[Hi Hi']]%lookup_app_Some [Hj|[Hj Hj']]%lookup_app_Some Ha Hb.
  - destruct (Hold _ _ _ Hi Ha), (Hold _ _ _ Hj Hb). eauto.
  - apply list_lookup_singleton_Some in Hj' as [Hj' <-].
    destruct (Hold _ _ _ Hi Ha) as [_ ?]. apply Hnew in Hb.
    apply lookup_lt_Some in Hi. lia.
  - apply list_lookup_singleton_Some in Hi' as [Hi' <-].
    destruct (Hold _ _ _ Hj Hb) as [_ ?]. apply Hnew in Ha.
    apply lookup_lt_Some in Hj. lia.
  - apply list_lookup_singleton_Some in Hi' as [Hi' <-].
    apply list_lookup_singleton_Some in Hj' as [Hj' <-].
    rewrite Ha in Hb. injection Hb as ->. lia.
Qed.
End first_seen.

(** ** Server grouping *)

Lemma has_columns_lookup cols row c :
  has_columns cols row → c ∈ cols → ∃ v, getitem row c = Ok v.
Proof.
  intros Hcols Hc. apply getitem_is_Some.
  by apply (proj1 (Forall_forall _ _) Hcols).
Qed.

Lemma has_columns_app cols1 cols2 row :
  has_columns (cols1 ++ cols2) row ↔
  has_columns cols1 row ∧ has_columns cols2 row.
Proof. apply Forall_app. Qed.

Lemma rows_of_snoc k rows row :
  rows_of k (rows ++ [row])
  = rows_of k rows ++ (if decide (row_id row = Some k) then [row] else []).
Proof. unfold rows_of. by rewrite filter_app. Qed.

Lemma rows_of_fresh k rows : k ∉ row_ids rows → rows_of k rows = [].
Proof.
  unfold rows_of, row_ids. induction rows as [|r rows IH]; [done|].
  csimpl. intros Hk. rewrite filter_cons.
  destruct (decide (row_id r = Some k)) as [Hr|Hr].
  - rewrite Hr in Hk. destruct Hk. apply elem_of_cons; auto.
  - apply IH. intros Hin. apply Hk.
    destruct (row_id r); csimpl; [apply elem_of_cons|]; auto.
Qed.

Lemma row_ids_snoc rows row k :
  row_id row = Some k → row_ids (rows ++ [row]) = row_ids rows ++ [k].
Proof. intros Hk. unfold row_ids. rewrite omap_app. csimpl. by rewrite Hk. Qed.

Lemma grouped_nil : grouped [] [].
Proof. split_and!; [constructor|done|done]. Qed.

Lemma group_step_grouped rows d row d' :
  grouped rows d → group_step d row = Ok d' → grouped (rows ++ [row]) d'.
Proof.
  intros (Hids & Hkeys & Hget). unfold group_step.
  intros (k & Hk%getitem_Ok & H)%res_bind_Ok.
  apply res_bind_Ok in H as (d1 & Hd1 & H).
  apply res_bind_Ok in H as (s & Hs & [= <-]).
  unfold od_getitem in Hs.
  destruct (od_get k d1) as [s'|] eqn:Hgs; [|done]. injection Hs as ->.
  assert (d1.*1 = first_seen (row_ids rows ++ [k]) ∧ k ∈ d1.*1 ∧
    ∀ k' s', od_get k' d1 = Some s' →
      srv_id s' = k' ∧ srv_clients s' = client_of_row <$> rows_of k' rows)
    as (Hkeys1 & Hin1 & Hget1).
  { rewrite first_seen_snoc, <-Hkeys.
    destruct (od_mem k d) eqn:Hmem.
    - injection Hd1 as <-. apply od_mem_spec in Hmem.
      by rewrite decide_True.
    - assert (Hnin : k ∉ d.*1).
      { intros ?%od_mem_spec. congruence. }
      apply res_bind_Ok in Hd1 as (created_at & _ & Hd1).
      apply res_bind_Ok in Hd1 as (updated_at & _ & Hd1).
      apply res_bind_Ok in Hd1 as (cluster_name & _ & [= <-]).
      rewrite decide_False by done. rewrite od_set_keys, decide_False by done.
      split_and!; [done|apply elem_of_app; right; by apply list_elem_of_singleton|].
      intros k' s'. rewrite od_get_set. destruct (decide (k' = k)) as [->|].
      + intros [= <-]. simpl. rewrite rows_of_fresh; [done|].
        intros Hin. apply Hnin. rewrite Hkeys. by apply elem_of_first_seen.
      + apply Hget. }
  split_and!.
  - apply Forall_app. split; [done|]. apply Forall_singleton.
    unfold row_id. by rewrite Hk.
  - rewrite (row_ids_snoc _ _ k) by done.
    by rewrite od_set_keys, decide_True.
  - intros k' s'. rewrite od_get_set, rows_of_snoc.
    assert (Hrid : row_id row = Some k) by done.
    destruct (decide (k' = k)) as [->|Hne].
    + intros [= <-]. rewrite decide_True by done.
      destruct (Hget1 _ _ Hgs) as [Hid Hcl]. simpl.
      by rewrite Hid, Hcl, fmap_app.
    + intros Hk'. rewrite decide_False by congruence.
      by rewrite app_nil_r; apply Hget1.
Qed.

Lemma for_each_group_step_grouped rows d :
  for_each group_step [] rows = Ok d → grouped rows d.
Proof.
  apply (for_each_invariant group_step grouped);
    eauto using grouped_nil, group_step_grouped.
Qed.

(** What the grouping returns: the servers carry the distinct ids in
    first-seen order, and each server's client list is the image of the rows
    with its id, in input order. *)
Lemma get_servers_on_cluster_Ok rows out :
  get_servers_on_cluster rows = Ok out →
  Forall (λ row, is_Some (row_id row)) rows ∧
  srv_id <$> out = first_seen (row_ids rows) ∧
  Forall (λ s, srv_clients s = client_of_row <$> rows_of (srv_id s) rows) out.
Proof.
  unfold get_servers_on_cluster.
  intros (d & (Hids & Hkeys & Hget)%for_each_group_step_grouped & [= <-])%res_bind_Ok.
  split; [done|].
  assert (Hall : Forall (λ ks : value * Server, srv_id ks.2 = ks.1 ∧
    srv_clients ks.2 = client_of_row <$> rows_of (srv_id ks.2) rows) d).
  { apply Forall_forall. intros [k s] Hin. simpl.
    destruct (Hget k s) as [-> ?]; [|done].
    apply od_get_of_elem; [|done]. rewrite Hkeys. apply NoDup_first_seen. }
  rewrite <-Hkeys. unfold od_values. clear -Hall.
  induction Hall as [|[k s] d [Hid Hcl] _ [IH1 IH2]]; [done|].
  csimpl in *. split; [by rewrite Hid, IH1|by constructor].
Qed.

(** The loop raises nothing on rows that have the server columns. *)
Lemma group_step_total d row :
  has_columns server_columns row → ∃ d', group_step d row = Ok d'.
Proof.
  intros Hcols. unfold group_step.
  destruct (has_columns_lookup _ _ "id" Hcols) as [k ->]; [set_solver|].
  simpl. destruct (od_mem k d) eqn:Hmem; simpl.
  - apply od_mem_spec, od_get_is_Some in Hmem as [s Hs].
    unfold od_getitem. rewrite Hs. simpl. eauto.
  - destruct (has_columns_lookup _ _ "created_at" Hcols) as [? ->]; [set_solver|].
    destruct (has_columns_lookup _ _ "updated_at" Hcols) as [? ->]; [set_solver|].
    destruct (has_columns_lookup _ _ "cluster_name" Hcols) as [? ->]; [set_solver|].
    simpl. unfold od_getitem.
    rewrite od_get_set, decide_True by done. simpl. eauto.
Qed.

Lemma for_each_group_step_total rows d :
  Forall (has_columns server_columns) rows →
  ∃ d', for_each group_step d rows = Ok d'.
Proof.
  intros Hall. revert d. induction Hall as [|row rows Hrow _ IH]; intros d.
  - simpl. eauto.
  - destruct (group_step_total d row Hrow) as [d1 Hd1]. simpl.
    rewrite Hd1. simpl. apply IH.
Qed.

Lemma row_ids_fmap rows :
  Forall (λ row, is_Some (row_id row)) rows →
  row_id <$> rows = Some <$> row_ids rows.
Proof.
  unfold row_ids. induction 1 as [|row rows [k Hk] _ IH]; [done|].
  csimpl. rewrite Hk. csimpl. by rewrite IH.
Qed.

(** The first occurrence of an id among the ids is the first row that
    carries it. *)
Lemma first_row_of_id rows k f :
  Forall (λ row, is_Some (row_id row)) rows →
  list_find (λ x, x = k) (row_ids rows) = Some (f, k) →
  ∃ row, list_find (λ row, row_id row = Some k) rows = Some (f, row).
Proof.
  intros Heq%row_ids_fmap (Hf & _ & Hleast)%list_find_Some.
  assert (Hat : ∀ j y, row_ids rows !! j = Some y →
    ∃ row, rows !! j = Some row ∧ row_id row = Some y).
  { intros j y Hj.
    assert (Hj' : (row_id <$> rows) !! j = Some (Some y)).
    { by rewrite Heq, list_lookup_fmap, Hj. }
    apply list_lookup_fmap_Some in Hj' as (row & ? & ?). eauto. }
  destruct (Hat _ _ Hf) as (row & Hrow & Hk). exists row.
  apply list_find_Some. split_and!; [done..|].
  intros j y Hj Hlt Hy.
  assert (Hj' : (Some <$> row_ids rows) !! j = Some (Some k)).
  { by rewrite <-Heq, list_lookup_fmap, Hj, <-Hy. }
  apply list_lookup_fmap_Some in Hj' as (k' & [= <-] & Hj').
  by apply (Hleast j k).
Qed.

(** ** User building *)

Lemma child_of_client_of_user_row row c :
  child_of row c → c = client_of_user_row row.
Proof.
  destruct c. unfold child_of, client_of_user_row. simpl.
  intros (H1 & H2 & H3 & H4 & H5).
  by rewrite !lookup_total_alt, H1, H2, H3, H4, H5.
Qed.

Lemma user_step_Ok clients row clients' :
  user_step clients row = Ok clients' →
  ∃ v, row !! "client_id" = Some v ∧
    if truthy v then ∃ c, clients' = clients ++ [c] ∧ child_of row c
    else clients' = clients.
Proof.
  unfold user_step. intros (v & Hv%getitem_Ok & H)%res_bind_Ok.
  exists v. split; [done|]. destruct (truthy v); [|by injection H].
  apply res_bind_Ok in H as (name & ?%getitem_Ok & H).
  apply res_bind_Ok in H as (user_id & ?%getitem_Ok & H).
  apply res_bind_Ok in H as (created_at & ?%getitem_Ok & H).
  apply res_bind_Ok in H as (updated_at & ?%getitem_Ok & [= <-]).
  eexists. split; [done|]. by repeat split.
Qed.

Lemma filter_has_client_snoc rows row :
  filter has_client (rows ++ [row])
  = filter has_client rows ++ (if has_client row then [row] else []).
Proof.
  rewrite filter_app. f_equal. rewrite filter_cons, filter_nil.
  destruct (has_client row); by simplify_option_eq.
Qed.

Lemma filter_has_client_cons row rows :
  filter has_client (row :: rows)
  = (if has_client row then [row] else []) ++ filter has_client rows.
Proof. rewrite filter_cons. destruct (has_client row); by simplify_option_eq. Qed.

(** The loop reads [client_id] in every row and collects one child per row
    with a true [client_id], in row order. *)
Lemma for_each_user_step_Ok rows clients :
  for_each user_step [] rows = Ok clients →
  Forall (λ row : Row, is_Some (row !! "client_id")) rows ∧
  Forall2 child_of (filter has_client rows) clients.
Proof.
  apply (for_each_invariant user_step
           (λ rows clients,
              Forall (λ row : Row, is_Some (row !! "client_id")) rows ∧
              Forall2 child_of (filter has_client rows) clients)).
  - split; constructor.
  - intros l cs row cs' [IH1 IH2] (v & Hv & Hstep)%user_step_Ok. split.
    { apply Forall_app. split; [done|]. apply Forall_singleton. eauto. }
    rewrite filter_has_client_snoc. unfold has_client. rewrite Hv.
    destruct (truthy v).
    + destruct Hstep as (c & -> & Hc). apply Forall2_app; [done|].
      constructor; [done|constructor].
    + subst cs'. by rewrite app_nil_r.
Qed.

(** What [process_user_data] returns when it returns a user. *)
Lemma process_user_data_Some rows u :
  process_user_data rows = Ok (Some u) →
  ∃ row0 rest, rows = row0 :: rest ∧
    row0 !! "id" = Some (usr_id u) ∧
    row0 !! "name" = Some (usr_name u) ∧
    row0 !! "email" = Some (usr_email u) ∧
    row0 !! "emailVerified" = Some (usr_emailVerified u) ∧
    row0 !! "image" = Some (usr_image u) ∧
    Forall (λ row : Row, is_Some (row !! "client_id")) rows ∧
    Forall2 child_of (filter has_client rows) (usr_clients u).
Proof.
  destruct rows as [|row0 rest]; [done|]. unfold process_user_data.
  intros (id & ?%getitem_Ok & H)%res_bind_Ok.
  apply res_bind_Ok in H as (name & ?%getitem_Ok & H).
  apply res_bind_Ok in H as (email & ?%getitem_Ok & H).
  apply res_bind_Ok in H as (emailVerified & ?%getitem_Ok & H).
  apply res_bind_Ok in H as (image & ?%getitem_Ok & H).
  apply res_bind_Ok in H as (clients & [??]%for_each_user_step_Ok & [= <-]).
  exists row0, rest. by split_and!.
Qed.

Lemma user_step_total clients row :
  has_columns client_columns row → ∃ clients', user_step clients row = Ok clients'.
Proof.
  intros Hcols. unfold user_step.
  destruct (has_columns_lookup _ _ "client_id" Hcols) as [v ->]; [set_solver|].
  destruct (has_columns_lookup _ _ "name" Hcols) as [? ->]; [set_solver|].
  destruct (has_columns_lookup _ _ "user_id" Hcols) as [? ->]; [set_solver|].
  destruct (has_columns_lookup _ _ "created_at" Hcols) as [? ->]; [set_solver|].
  destruct (has_columns_lookup _ _ "updated_at" Hcols) as [? ->]; [set_solver|].
  simpl. destruct (truthy v); eauto.
Qed.

Lemma for_each_user_step_total rows clients :
  Forall (has_columns client_columns) rows →
  ∃ clients', for_each user_step clients rows = Ok clients'.
Proof.
  intros Hall. revert clients.
  induction Hall as [|row rows Hrow _ IH]; intros clients.
  - simpl. eauto.
  - destruct (user_step_total clients row Hrow) as [c1 Hc1]. simpl.
    rewrite Hc1. simpl. apply IH.
Qed.

Lemma process_user_data_total row0 rest :
  has_columns identity_columns row0 →
  Forall (has_columns client_columns) (row0 :: rest) →
  ∃ u, process_user_data (row0 :: rest) = Ok (Some u).
Proof.
  intros Hid Hall. unfold process_user_data.
  destruct (has_columns_lookup _ _ "id" Hid) as [? ->]; [set_solver|].
  destruct (has_columns_lookup _ _ "name" Hid) as [? ->]; [set_solver|].
  destruct (has_columns_lookup _ _ "email" Hid) as [? ->]; [set_solver|].
  destruct (has_columns_lookup _ _ "emailVerified" Hid) as [? ->]; [set_solver|].
  destruct (has_columns_lookup _ _ "image" Hid) as [? ->]; [set_solver|].
  destruct (for_each_user_step_total _ [] Hall) as [clients ->].
  simpl. eauto.
Qed.

(** ** The sample inputs *)

(** The example of the specification: three rows, two servers. *)
Example get_servers_on_cluster_sample :
  get_servers_on_cluster sample_result = Ok [sample_server1; sample_server2].
Proof. vm_compute. reflexivity. Qed.

(** A left-join row whose client columns are all null still yields one
    client entry. *)
Example get_servers_on_cluster_null_client :
  get_servers_on_cluster [server_row "s1" VNone]
  = Ok [mkServer (VStr "s1") (VTime 10) (VTime 20) (VStr "c")
          [client_part VNone]].
Proof. vm_compute. reflexivity. Qed.

Example process_user_data_sample :
  process_user_data [user_row (VStr "k1") "A"; user_row VNone "A";
                     user_row (VStr "k2") "B"]
  = Ok (Some (sample_user [sample_client (VStr "k1") "A";
                           sample_client (VStr "k2") "B"])).
Proof. vm_compute. reflexivity. Qed.

Example process_user_data_null_client :
  process_user_data [user_row VNone "A"] = Ok (Some (sample_user [])).
Proof. vm_compute. reflexivity. Qed.

(** * The properties of the specification *)

(** ** Server grouping *)

(** C1: whenever the grouping returns, every row has an id, no server id
    occurs twice in the output, the output has as many servers as the input
    has distinct ids, and the output ids are exactly the input ids. *)
Theorem get_servers_on_cluster_one_per_id (rows : list Row) (out : list Server) :
  get_servers_on_cluster rows = Ok out →
  Forall (λ row, is_Some (row_id row)) rows ∧
  NoDup (srv_id <$> out) ∧
  length out = length (remove_dups (row_ids rows)) ∧
  (∀ k, k ∈ srv_id <$> out ↔ ∃ row, row ∈ rows ∧ row_id row = Some k).
Proof.
  intros (Hids & Hkeys & _)%get_servers_on_cluster_Ok. split_and!.
  - done.
  - rewrite Hkeys. apply NoDup_first_seen.
  - by rewrite <-(length_fmap srv_id), Hkeys, length_first_seen.
  - intros k. rewrite Hkeys, elem_of_first_seen. apply list_elem_of_omap.
Qed.

Lemma get_servers_on_cluster_one_per_id_witness :
  get_servers_on_cluster sample_result = Ok [sample_server1; sample_server2] ∧
  NoDup (srv_id <$> [sample_server1; sample_server2]) ∧
  length [sample_server1; sample_server2]
  = length (remove_dups (row_ids sample_result)).
Proof.
  split; [vm_compute; reflexivity|].
  destruct (get_servers_on_cluster_one_per_id sample_result
              [sample_server1; sample_server2]) as (_ & ? & ? & _);
    [vm_compute; reflexivity|done].
Defined.

(** C2: the client list of each returned server has one entry per input row
    with that server's id; no column of the row is tested. *)
Theorem get_servers_on_cluster_client_count
    (rows : list Row) (out : list Server) (s : Server) :
  get_servers_on_cluster rows = Ok out →
  s ∈ out →
  length (srv_clients s) = length (rows_of (srv_id s) rows).
Proof.
  intros (_ & _ & Hcl)%get_servers_on_cluster_Ok Hs.
  rewrite (proj1 (Forall_forall _ _) Hcl s Hs). apply length_fmap.
Qed.

Lemma get_servers_on_cluster_client_count_witness :
  get_servers_on_cluster [server_row "s1" VNone; server_row "s1" (VStr "k2")]
  = Ok [mkServer (VStr "s1") (VTime 10) (VTime 20) (VStr "c")
          [client_part VNone; client_part (VStr "k2")]] ∧
  length [client_part VNone; client_part (VStr "k2")]
  = length (rows_of (VStr "s1")
              [server_row "s1" VNone; server_row "s1" (VStr "k2")]).
Proof.
  split; [vm_compute; reflexivity|].
  apply (get_servers_on_cluster_client_count
           [server_row "s1" VNone; server_row "s1" (VStr "k2")]
           [mkServer (VStr "s1") (VTime 10) (VTime 20) (VStr "c")
              [client_part VNone; client_part (VStr "k2")]]
           (mkServer (VStr "s1") (VTime 10) (VTime 20) (VStr "c")
              [client_part VNone; client_part (VStr "k2")]));
    [vm_compute; reflexivity|apply list_elem_of_singleton; reflexivity].
Defined.

(** C3: servers are returned in first-seen order.  If [a] is returned at
    position [i] and [b] at position [j], then both ids have a first row in
    the input, and [i < j] exactly when the first row with [a]'s id comes
    before the first row with [b]'s id. *)
Theorem get_servers_on_cluster_first_seen_order
    (rows : list Row) (out : list Server) (i j : nat) (a b : Server) :
  get_servers_on_cluster rows = Ok out →
  out !! i = Some a →
  out !! j = Some b →
  ∃ fa ra fb rb,
    list_find (λ row, row_id row = Some (srv_id a)) rows = Some (fa, ra) ∧
    list_find (λ row, row_id row = Some (srv_id b)) rows = Some (fb, rb) ∧
    (i < j ↔ fa < fb).
Proof.
  intros (Hids & Hkeys & _)%get_servers_on_cluster_Ok Hi Hj.
  assert (Hi' : first_seen (row_ids rows) !! i = Some (srv_id a)).
  { by rewrite <-Hkeys, list_lookup_fmap, Hi. }
  assert (Hj' : first_seen (row_ids rows) !! j = Some (srv_id b)).
  { by rewrite <-Hkeys, list_lookup_fmap, Hj. }
  destruct (first_seen_find _ _ _ Hi') as [fa Hfa].
  destruct (first_seen_find _ _ _ Hj') as [fb Hfb].
  destruct (first_row_of_id _ _ _ Hids Hfa) as [ra Hra].
  destruct (first_row_of_id _ _ _ Hids Hfb) as [rb Hrb].
  exists fa, ra, fb, rb. split_and!; [done..|].
  by apply (first_seen_order (row_ids rows) i j (srv_id a) (srv_id b)).
Qed.

Lemma get_servers_on_cluster_first_seen_order_witness :
  get_servers_on_cluster sample_result = Ok [sample_server1; sample_server2] ∧
  ∃ fa ra fb rb,
    list_find (λ row, row_id row = Some (VStr "s1")) sample_result
    = Some (fa, ra) ∧
    list_find (λ row, row_id row = Some (VStr "s2")) sample_result
    = Some (fb, rb) ∧
    (0 < 1 ↔ fa < fb).
Proof.
  split; [vm_compute; reflexivity|].
  apply (get_servers_on_cluster_first_seen_order sample_result
           [sample_server1; sample_server2] 0 1 sample_server1 sample_server2);
    [vm_compute; reflexivity|reflexivity|reflexivity].
Defined.

(** C9: the grouping of no rows is the empty list, and on rows that have the
    server columns the grouping returns a list and raises nothing. *)
Theorem get_servers_on_cluster_no_error :
  get_servers_on_cluster [] = Ok [] ∧
  ∀ rows : list Row,
    Forall (has_columns server_columns) rows →
    ∃ out, get_servers_on_cluster rows = Ok out.
Proof.
  split; [done|]. intros rows Hrows. unfold get_servers_on_cluster.
  destruct (for_each_group_step_total rows [] Hrows) as [d ->].
  simpl. eauto.
Qed.

Lemma get_servers_on_cluster_no_error_witness :
  Forall (has_columns server_columns) sample_result ∧
  ∃ out, get_servers_on_cluster sample_result = Ok out.
Proof.
  assert (H : Forall (has_columns server_columns) sample_result).
  { repeat constructor; eexists; vm_compute; reflexivity. }
  split; [exact H|].
  exact (proj2 get_servers_on_cluster_no_error sample_result H).
Defined.

(** ** User building *)

(** C4, as stated, fails: a row whose [client_id] is the integer [0] has a
    non-null [client_id] and yet contributes no child. *)
Lemma process_user_data_zero_client_id_counterexample :
  user_row (VInt 0) "A" !! "client_id" = Some (VInt 0) ∧
  VInt 0 ≠ VNone ∧
  process_user_data [user_row (VInt 0) "A"] = Ok (Some (sample_user [])).
Proof. split_and!; [vm_compute; reflexivity|discriminate|vm_compute; reflexivity]. Qed.

(** C4, amended: a row contributes a child exactly when its [client_id] is
    true in the sense of [if]: not [None], not [0], not the empty string.
    The client list is the children of the rows before, then the child of
    the row if its [client_id] is true and nothing otherwise, then the
    children of the rows after.  When every [client_id] is null the client
    list is empty. *)
Theorem process_user_data_child_iff_truthy
    (pre : list Row) (row : Row) (post : list Row) (u : User) :
  process_user_data (pre ++ row :: post) = Ok (Some u) →
  (∃ v cpre crow cpost,
     row !! "client_id" = Some v ∧
     usr_clients u = cpre ++ crow ++ cpost ∧
     Forall2 child_of (filter has_client pre) cpre ∧
     Forall2 child_of (filter has_client post) cpost ∧
     if truthy v then ∃ c, crow = [c] ∧ child_of row c else crow = []) ∧
  (Forall (λ r : Row, r !! "client_id" = Some VNone) (pre ++ row :: post) →
   usr_clients u = []).
Proof.
  intros (_ & _ & _ & _ & _ & _ & _ & _ & Hcid & Hcl)%process_user_data_Some.
  split.
  - apply Forall_app in Hcid as [_ [[v Hv] _]%Forall_cons].
    rewrite filter_app, filter_has_client_cons in Hcl.
    apply Forall2_app_inv_l in Hcl as (cpre & k & Hpre & Hk & ->).
    apply Forall2_app_inv_l in Hk as (crow & cpost & Hrow & Hpost & ->).
    exists v, cpre, crow, cpost. split_and!; [done..|].
    assert (Hhas : has_client row = truthy v).
    { unfold has_client. by rewrite Hv. }
    rewrite Hhas in Hrow. destruct (truthy v).
    + apply Forall2_cons_inv_l in Hrow as (c & k & Hc & ->%Forall2_nil_inv_l & ->).
      eauto.
    + by apply Forall2_nil_inv_l in Hrow.
  - intros Hnull. apply (Forall2_nil_inv_l child_of).
    replace (filter has_client (pre ++ row :: post)) with (@nil Row) in Hcl;
      [done|].
    symmetry. clear Hcl Hcid. induction Hnull as [|r l Hr _ IH]; [done|].
    rewrite filter_has_client_cons. unfold has_client at 1. by rewrite Hr.
Qed.

Lemma process_user_data_child_iff_truthy_witness :
  process_user_data ([user_row (VStr "k1") "A"] ++ user_row VNone "A"
                       :: [user_row (VStr "k2") "B"])
  = Ok (Some (sample_user [sample_client (VStr "k1") "A";
                           sample_client (VStr "k2") "B"])) ∧
  ∃ v cpre crow cpost,
    user_row VNone "A" !! "client_id" = Some v ∧
    [sample_client (VStr "k1") "A"; sample_client (VStr "k2") "B"]
    = cpre ++ crow ++ cpost ∧
    Forall2 child_of (filter has_client [user_row (VStr "k1") "A"]) cpre ∧
    Forall2 child_of (filter has_client [user_row (VStr "k2") "B"]) cpost ∧
    if truthy v then ∃ c, crow = [c] ∧ child_of (user_row VNone "A") c
    else crow = [].
Proof.
  split; [vm_compute; reflexivity|].
  apply (process_user_data_child_iff_truthy
           [user_row (VStr "k1") "A"] (user_row VNone "A")
           [user_row (VStr "k2") "B"]
           (sample_user [sample_client (VStr "k1") "A";
                         sample_client (VStr "k2") "B"])).
  vm_compute; reflexivity.
Defined.

(** C5: for no rows the result is [None], returned and not raised. *)
Theorem process_user_data_empty : process_user_data [] = Ok None.
Proof. reflexivity. Qed.

(** C6: the identity fields of the returned user are the columns of the
    first row; replacing the rows after the first leaves them unchanged. *)
Theorem process_user_data_identity_first_row
    (row0 : Row) (rest rest' : list Row) (u u' : User) :
  process_user_data (row0 :: rest) = Ok (Some u) →
  process_user_data (row0 :: rest') = Ok (Some u') →
  identity u' = identity u ∧
  row0 !! "id" = Some (usr_id u) ∧
  row0 !! "name" = Some (usr_name u) ∧
  row0 !! "email" = Some (usr_email u) ∧
  row0 !! "emailVerified" = Some (usr_emailVerified u) ∧
  row0 !! "image" = Some (usr_image u).
Proof.
  intros (r & ? & [= <- <-] & H1 & H2 & H3 & H4 & H5 & _)%process_user_data_Some.
  intros (r & ? & [= <- <-] & ? & ? & ? & ? & ? & _)%process_user_data_Some.
  split; [|done].
  assert (E1 : usr_id u' = usr_id u) by congruence.
  assert (E2 : usr_name u' = usr_name u) by congruence.
  assert (E3 : usr_email u' = usr_email u) by congruence.
  assert (E4 : usr_emailVerified u' = usr_emailVerified u) by congruence.
  assert (E5 : usr_image u' = usr_image u) by congruence.
  unfold identity. by rewrite E1, E2, E3, E4, E5.
Qed.

Lemma process_user_data_identity_first_row_witness :
  process_user_data [user_row VNone "A"; user_row (VStr "k2") "B"]
  = Ok (Some (sample_user [sample_client (VStr "k2") "B"])) ∧
  process_user_data [user_row VNone "A"] = Ok (Some (sample_user [])) ∧
  identity (sample_user [])
  = identity (sample_user [sample_client (VStr "k2") "B"]).
Proof.
  split; [vm_compute; reflexivity|]. split; [vm_compute; reflexivity|].
  apply (process_user_data_identity_first_row (user_row VNone "A")
           [user_row (VStr "k2") "B"] []); vm_compute; reflexivity.
Defined.

(** C7, as stated, fails: the child's [id] is not the row's [id] column.
    The row below has [id] [u1] and the non-null [client_id] [k1]; its child
    has [id] [k1]. *)
Lemma process_user_data_child_id_counterexample :
  user_row (VStr "k1") "A" !! "client_id" = Some (VStr "k1") ∧
  user_row (VStr "k1") "A" !! "id" = Some (VStr "u1") ∧
  process_user_data [user_row (VStr "k1") "A"]
  = Ok (Some (sample_user [sample_client (VStr "k1") "A"])) ∧
  Some (cl_id (sample_client (VStr "k1") "A")) ≠ user_row (VStr "k1") "A" !! "id".
Proof.
  split_and!; [vm_compute; reflexivity..|].
  vm_compute. discriminate.
Qed.

(** C7, amended: a row whose [client_id] is true has its child in the client
    list, at the position given by the number of such rows before it; the
    child's [id] is the row's [client_id] column, and its [name], [user_id],
    [created_at] and [updated_at] are the row's columns of those names. *)
Theorem process_user_data_child_fields
    (pre : list Row) (row : Row) (post : list Row) (u : User) (v : value) :
  process_user_data (pre ++ row :: post) = Ok (Some u) →
  row !! "client_id" = Some v →
  truthy v = true →
  ∃ c, usr_clients u !! length (filter has_client pre) = Some c ∧
    cl_id c = v ∧
    row !! "name" = Some (cl_name c) ∧
    row !! "user_id" = Some (cl_user_id c) ∧
    row !! "created_at" = Some (cl_created_at c) ∧
    row !! "updated_at" = Some (cl_updated_at c).
Proof.
  intros (_ & _ & _ & _ & _ & _ & _ & _ & _ & Hcl)%process_user_data_Some Hv Ht.
  assert (Hhas : has_client row = true).
  { unfold has_client. by rewrite Hv. }
  rewrite filter_app, filter_has_client_cons, Hhas in Hcl.
  destruct (Forall2_lookup_l _ _ _ (length (filter has_client pre)) row Hcl)
    as (c & Hc & Hid & ? & ? & ? & ?).
  { simpl. by rewrite list_lookup_middle. }
  exists c. split_and!; [done| |done..]. congruence.
Qed.

Lemma process_user_data_child_fields_witness :
  process_user_data ([user_row VNone "A"] ++ user_row (VStr "k2") "B" :: [])
  = Ok (Some (sample_user [sample_client (VStr "k2") "B"])) ∧
  user_row (VStr "k2") "B" !! "client_id" = Some (VStr "k2") ∧
  truthy (VStr "k2") = true ∧
  ∃ c, [sample_client (VStr "k2") "B"]
       !! length (filter has_client [user_row VNone "A"]) = Some c ∧
    cl_id c = VStr "k2" ∧
    user_row (VStr "k2") "B" !! "name" = Some (cl_name c) ∧
    user_row (VStr "k2") "B" !! "user_id" = Some (cl_user_id c) ∧
    user_row (VStr "k2") "B" !! "created_at" = Some (cl_created_at c) ∧
    user_row (VStr "k2") "B" !! "updated_at" = Some (cl_updated_at c).
Proof.
  split; [vm_compute; reflexivity|]. split; [vm_compute; reflexivity|].
  split; [reflexivity|].
  apply (process_user_data_child_fields [user_row VNone "A"]
           (user_row (VStr "k2") "B") []
           (sample_user [sample_client (VStr "k2") "B"]) (VStr "k2"));
    vm_compute; reflexivity.
Defined.

(** ** Both operations *)

(** C8: children keep the order of their rows.  A server's client list is
    the image, row by row, of the input rows with that server's id, and a
    user's client list is the image, row by row, of the input rows whose
    [client_id] is true; both subsequences are in input order. *)
Theorem clients_in_row_order :
  (∀ (rows : list Row) (out : list Server) (s : Server),
     get_servers_on_cluster rows = Ok out → s ∈ out →
     srv_clients s = client_of_row <$> rows_of (srv_id s) rows) ∧
  (∀ (rows : list Row) (u : User),
     process_user_data rows = Ok (Some u) →
     usr_clients u = client_of_user_row <$> filter has_client rows).
Proof.
  split.
  - intros rows out s (_ & _ & Hcl)%get_servers_on_cluster_Ok Hs.
    by apply (proj1 (Forall_forall _ _) Hcl).
  - intros rows u (_ & _ & _ & _ & _ & _ & _ & _ & _ & Hcl)%process_user_data_Some.
    induction Hcl as [|row c l k Hc _ IH]; [done|].
    csimpl. by rewrite <-IH, <-(child_of_client_of_user_row row c).
Qed.

Lemma clients_in_row_order_witness :
  (get_servers_on_cluster sample_result = Ok [sample_server1; sample_server2] ∧
   srv_clients sample_server1
   = client_of_row <$> rows_of (srv_id sample_server1) sample_result) ∧
  (process_user_data [user_row (VStr "k1") "A"; user_row VNone "A";
                      user_row (VStr "k2") "B"]
   = Ok (Some (sample_user [sample_client (VStr "k1") "A";
                            sample_client (VStr "k2") "B"])) ∧
   [sample_client (VStr "k1") "A"; sample_client (VStr "k2") "B"]
   = client_of_user_row <$>
       filter has_client [user_row (VStr "k1") "A"; user_row VNone "A";
                          user_row (VStr "k2") "B"]).
Proof.
  split; (split; [vm_compute; reflexivity|]).
  - apply (proj1 clients_in_row_order sample_result
             [sample_server1; sample_server2] sample_server1);
      [vm_compute; reflexivity|apply elem_of_cons; left; reflexivity].
  - apply (proj2 clients_in_row_order
             [user_row (VStr "k1") "A"; user_row VNone "A";
              user_row (VStr "k2") "B"]
             (sample_user [sample_client (VStr "k1") "A";
                           sample_client (VStr "k2") "B"])).
    vm_compute; reflexivity.
Defined.

(** C10: the result is [None] exactly for the empty input; on a non-empty
    input whose rows have the user columns the function returns a user and
    raises nothing. *)
Theorem process_user_data_None_iff_empty (rows : list Row) :
  (process_user_data rows = Ok None ↔ rows = []) ∧
  (rows ≠ [] → Forall (has_columns user_columns) rows →
   ∃ u, process_user_data rows = Ok (Some u)).
Proof.
  split; [split|].
  - destruct rows as [|row0 rest]; [done|]. unfold process_user_data.
    intros H. repeat (apply res_bind_Ok in H as (? & _ & H)). done.
  - by intros ->.
  - destruct rows as [|row0 rest]; [done|]. intros _ Hall.
    apply process_user_data_total.
    + apply Forall_cons in Hall as [Hrow _].
      by apply has_columns_app in Hrow as [? _].
    + eapply Forall_impl; [exact Hall|].
      intros row Hrow. by apply has_columns_app in Hrow as [_ ?].
Qed.

Lemma process_user_data_None_iff_empty_witness :
  [user_row VNone "A"] ≠ [] ∧
  Forall (has_columns user_columns) [user_row VNone "A"] ∧
  ∃ u, process_user_data [user_row VNone "A"] = Ok (Some u).
Proof.
  assert (H : Forall (has_columns user_columns) [user_row VNone "A"]).
  { repeat constructor; eexists; vm_compute; reflexivity. }
  split; [discriminate|]. split; [exact H|].
  exact (proj2 (process_user_data_None_iff_empty [user_row VNone "A"])
           ltac:(discriminate) H).
Defined.

(** * Further properties of the server grouping *)

Section odict_more.
Context {K V : Type} `{!EqDecision K}.
Implicit Types (k : K) (v : V) (d e : list (K * V)).

Lemma od_get_None k d : k ∉ d.*1 → od_get k d = None.
Proof.
  induction d as [|[k0 v0] d IH]; csimpl; [done|]. intros Hk.
  rewrite decide_False.
  - apply IH. intros ?. apply Hk, elem_of_cons. auto.
  - intros ->. apply Hk, elem_of_cons. auto.
Qed.

Lemma od_mem_app_fresh k d e : k ∉ d.*1 → od_mem k (d ++ e) = od_mem k e.
Proof.
  intros Hk. unfold od_mem. rewrite fmap_app.
  apply bool_decide_ext. rewrite elem_of_app. tauto.
Qed.

Lemma od_get_app_fresh k d e : k ∉ d.*1 → od_get k (d ++ e) = od_get k e.
Proof.
  induction d as [|[k0 v0] d IH]; csimpl; [done|]. intros Hk.
  rewrite decide_False.
  - apply IH. intros ?. apply Hk, elem_of_cons. auto.
  - intros ->. apply Hk, elem_of_cons. auto.
Qed.

Lemma od_set_app_fresh k v d e :
  k ∉ d.*1 → od_set k v (d ++ e) = d ++ od_set k v e.
Proof.
  induction d as [|[k0 v0] d IH]; csimpl; [done|]. intros Hk.
  rewrite decide_False.
  - f_equal. apply IH. intros ?. apply Hk, elem_of_cons. auto.
  - intros ->. apply Hk, elem_of_cons. auto.
Qed.

Lemma od_rewrite_absent k v d :
  k ∉ d.*1 → (λ kv : K * V, if decide (kv.1 = k) then (k, v) else kv) <$> d = d.
Proof.
  induction d as [|[k0 v0] d IH]; csimpl; [done|]. intros Hk.
  rewrite decide_False.
  - f_equal. apply IH. intros ?. apply Hk, elem_of_cons. auto.
  - intros ->. apply Hk, elem_of_cons. auto.
Qed.

(** Assigning to a present key rewrites the entry of that key and no
    other. *)
Lemma od_set_present k v d :
  NoDup d.*1 → k ∈ d.*1 →
  od_set k v d = (λ kv, if decide (kv.1 = k) then (k, v) else kv) <$> d.
Proof.
  induction d as [|[k0 v0] d IH]; csimpl.
  - by intros _ ?%elem_of_nil.
  - intros [Hk0 Hnd]%NoDup_cons Hin. destruct (decide (k = k0)) as [->|Hne].
    + rewrite decide_True by done. by rewrite od_rewrite_absent.
    + rewrite decide_False by done. f_equal. apply IH; [done|].
      by apply elem_of_cons in Hin as [?|?].
Qed.
End odict_more.

Lemma od_get_Some_keys {K V} `{!EqDecision K} (k : K) (v : V) d :
  od_get k d = Some v → k ∈ d.*1.
Proof.
  intros Hget. destruct (decide (k ∈ d.*1)) as [|Hk]; [done|].
  by rewrite (od_get_None k d Hk) in Hget.
Qed.

(** A row whose id is a key of the dictionary only adds its client. *)
Lemma group_step_seen d row k s :
  row_id row = Some k → od_get k d = Some s →
  group_step d row = Ok (od_set k (append_client (client_of_row row) s) d).
Proof.
  unfold row_id, group_step, getitem. intros -> Hs. simpl.
  assert (Hmem : od_mem k d = true).
  { apply od_mem_spec. by eapply od_get_Some_keys. }
  rewrite Hmem. simpl. unfold od_getitem. by rewrite Hs.
Qed.

(** A row whose id is not a key opens a server, which goes last. *)
Lemma group_step_fresh d row k c u n :
  row_id row = Some k → k ∉ d.*1 →
  row !! "created_at" = Some c → row !! "updated_at" = Some u →
  row !! "cluster_name" = Some n →
  group_step d row = Ok (d ++ [(k, mkServer k c u n [client_of_row row])]).
Proof.
  unfold row_id, group_step, getitem. intros -> Hk -> -> ->. simpl.
  assert (Hmem : od_mem k d = false).
  { apply not_true_is_false. by intros ?%od_mem_spec. }
  rewrite Hmem. simpl.
  assert (Hset : ∀ v : Server, od_set k v d = d ++ [(k, v)]).
  { intros v. rewrite <-(app_nil_r d) at 1. by rewrite od_set_app_fresh. }
  rewrite Hset. unfold od_getitem. rewrite od_get_app_fresh by done. simpl.
  rewrite decide_True by done. simpl.
  rewrite od_set_app_fresh by done. simpl. by rewrite decide_True.
Qed.

(** The dictionary behind a returned output. *)
Lemma get_servers_on_cluster_state rows out :
  get_servers_on_cluster rows = Ok out →
  ∃ d, for_each group_step [] rows = Ok d ∧ out = d.*2 ∧
    grouped rows d ∧ NoDup d.*1 ∧
    Forall (λ ks : value * Server, srv_id ks.2 = ks.1) d.
Proof.
  unfold get_servers_on_cluster. intros (d & Hd & [= <-])%res_bind_Ok.
  exists d. pose proof (for_each_group_step_grouped _ _ Hd) as Hg.
  destruct Hg as (Hids & Hkeys & Hget).
  assert (Hnd : NoDup d.*1) by (rewrite Hkeys; apply NoDup_first_seen).
  split_and!; [done|done|by split_and!|done|].
  apply Forall_forall. intros [k s] Hin. simpl.
  by destruct (Hget k s (od_get_of_elem _ _ _ Hnd Hin)).
Qed.

Lemma get_servers_on_cluster_snoc rows d row :
  for_each group_step [] rows = Ok d →
  get_servers_on_cluster (rows ++ [row])
  = let! d' := group_step d row in Ok (od_values d').
Proof.
  intros Hd. unfold get_servers_on_cluster.
  rewrite for_each_app, Hd. simpl. by destruct (group_step d row).
Qed.

(** X1: a further row whose id is already among the rows never raises,
    whatever other columns it has or lacks; it leaves the servers and their
    order as they are and appends its client entry to the server of its id
    and to no other. *)
Theorem get_servers_on_cluster_seen_row
    (rows : list Row) (out : list Server) (row : Row) (k : value) :
  get_servers_on_cluster rows = Ok out →
  row_id row = Some k →
  k ∈ row_ids rows →
  get_servers_on_cluster (rows ++ [row]) = Ok (add_client k row out).
Proof.
  intros (d & Hd & -> & (_ & Hkeys & _) & Hnd & Hid)%get_servers_on_cluster_state
    Hk Hin.
  assert (Hkd : k ∈ d.*1) by (by rewrite Hkeys; apply elem_of_first_seen).
  destruct (od_get_is_Some _ _ Hkd) as [s Hs].
  rewrite (get_servers_on_cluster_snoc _ _ _ Hd),
    (group_step_seen _ _ _ _ Hk Hs). simpl. f_equal.
  unfold od_values, add_client. rewrite od_set_present by done.
  rewrite <-!list_fmap_compose. apply Forall_fmap_ext_1.
  apply Forall_forall. intros [k' s'] Hin'. simpl.
  pose proof (proj1 (Forall_forall _ _) Hid _ Hin') as Hid'. simpl in Hid'.
  rewrite Hid'. destruct (decide (k' = k)) as [->|]; [|done]. simpl.
  pose proof (od_get_of_elem _ _ _ Hnd Hin') as Hget. congruence.
Qed.

Lemma get_servers_on_cluster_seen_row_witness :
  get_servers_on_cluster [server_row "s1" (VStr "k1")]
  = Ok [mkServer (VStr "s1") (VTime 10) (VTime 20) (VStr "c")
          [client_part (VStr "k1")]] ∧
  get_servers_on_cluster
    ([server_row "s1" (VStr "k1")] ++ [{["id" := VStr "s1"]}])
  = Ok (add_client (VStr "s1") {["id" := VStr "s1"]}
          [mkServer (VStr "s1") (VTime 10) (VTime 20) (VStr "c")
             [client_part (VStr "k1")]]).
Proof.
  split; [vm_compute; reflexivity|].
  apply get_servers_on_cluster_seen_row;
    [vm_compute; reflexivity|vm_compute; reflexivity|].
  apply list_elem_of_singleton. vm_compute. reflexivity.
Defined.

(** X2: a further row with a new id and the server columns adds one server,
    at the end, built from that row and holding that row's client entry; the
    servers before it are unchanged. *)
Theorem get_servers_on_cluster_new_row
    (rows : list Row) (out : list Server) (row : Row) (k : value) :
  get_servers_on_cluster rows = Ok out →
  row_id row = Some k →
  k ∉ row_ids rows →
  has_columns server_columns row →
  get_servers_on_cluster (rows ++ [row]) = Ok (out ++ [server_of_row k row]).
Proof.
  intros (d & Hd & -> & (_ & Hkeys & _) & _ & _)%get_servers_on_cluster_state
    Hk Hnin Hcols.
  assert (Hkd : k ∉ d.*1).
  { rewrite Hkeys. intros Hin. apply Hnin. by apply elem_of_first_seen. }
  destruct (has_columns_lookup _ _ "created_at" Hcols) as [c Hc%getitem_Ok];
    [set_solver|].
  destruct (has_columns_lookup _ _ "updated_at" Hcols) as [u Hu%getitem_Ok];
    [set_solver|].
  destruct (has_columns_lookup _ _ "cluster_name" Hcols) as [n Hn%getitem_Ok];
    [set_solver|].
  rewrite (get_servers_on_cluster_snoc _ _ _ Hd),
    (group_step_fresh _ _ _ c u n Hk Hkd) by done.
  simpl. unfold od_values, server_of_row. rewrite fmap_app. simpl.
  by rewrite !lookup_total_alt, Hc, Hu, Hn.
Qed.

Lemma get_servers_on_cluster_new_row_witness :
  get_servers_on_cluster [server_row "s1" (VStr "k1")]
  = Ok [mkServer (VStr "s1") (VTime 10) (VTime 20) (VStr "c")
          [client_part (VStr "k1")]] ∧
  get_servers_on_cluster
    ([server_row "s1" (VStr "k1")] ++ [server_row "s2" VNone])
  = Ok ([mkServer (VStr "s1") (VTime 10) (VTime 20) (VStr "c")
           [client_part (VStr "k1")]]
        ++ [server_of_row (VStr "s2") (server_row "s2" VNone)]).
Proof.
  split; [vm_compute; reflexivity|].
  apply get_servers_on_cluster_new_row;
    [vm_compute; reflexivity|vm_compute; reflexivity| |].
  - intros [= ?]%list_elem_of_singleton.
  - repeat constructor; eexists; vm_compute; reflexivity.
Defined.

(** X3: the first row that lacks a column the loop reads stops the grouping
    with a [KeyError] for that column, and no partial list is returned.  The
    row [row] has no id or a new id, the rows before it group without error,
    and [c] is the first of [id], [created_at], [updated_at], [cluster_name]
    that [row] lacks. *)
Theorem get_servers_on_cluster_missing_column
    (pre : list Row) (out : list Server) (row : Row) (post : list Row)
    (i : nat) (c : string) :
  get_servers_on_cluster pre = Ok out →
  (∀ k, row_id row = Some k → k ∉ row_ids pre) →
  list_find (λ c, row !! c = None) server_columns = Some (i, c) →
  get_servers_on_cluster (pre ++ row :: post) = Raise (KeyError (VStr c)).
Proof.
  intros (d & Hd & -> & (_ & Hkeys & _) & _ & _)%get_servers_on_cluster_state
    Hnew (Hi & Hc & Hbefore)%list_find_Some.
  unfold get_servers_on_cluster. rewrite for_each_app, Hd. simpl.
  assert (Hstep : group_step d row = Raise (KeyError (VStr c)));
    [|by rewrite Hstep].
  unfold group_step, getitem.
  destruct i as [|i]; [injection Hi as <-; by rewrite Hc|].
  destruct (row !! "id") as [k|] eqn:Hk;
    [|exfalso; apply (Hbefore 0 "id"); [done|lia|done]].
  simpl.
  assert (Hmem : od_mem k d = false).
  { apply not_true_is_false. intros Hin%od_mem_spec.
    rewrite Hkeys in Hin. apply (proj1 (elem_of_first_seen _ _)) in Hin.
    by apply (Hnew k). }
  rewrite Hmem.
  destruct i as [|i]; [injection Hi as <-; by rewrite Hc|].
  destruct (row !! "created_at") eqn:?;
    [|exfalso; apply (Hbefore 1 "created_at"); [done|lia|done]].
  destruct i as [|i]; [injection Hi as <-; by rewrite Hc|].
  destruct (row !! "updated_at") eqn:?;
    [|exfalso; apply (Hbefore 2 "updated_at"); [done|lia|done]].
  destruct i as [|i]; [injection Hi as <-; by rewrite Hc|].
  destruct i; discriminate.
Qed.

Lemma get_servers_on_cluster_missing_column_witness :
  get_servers_on_cluster [server_row "s1" (VStr "k1")]
  = Ok [mkServer (VStr "s1") (VTime 10) (VTime 20) (VStr "c")
          [client_part (VStr "k1")]] ∧
  get_servers_on_cluster
    ([server_row "s1" (VStr "k1")]
     ++ {["id" := VStr "s2"; "created_at" := VTime 1]}
     :: [server_row "s1" VNone])
  = Raise (KeyError (VStr "updated_at")).
Proof.
  split; [vm_compute; reflexivity|].
  apply (get_servers_on_cluster_missing_column
           [server_row "s1" (VStr "k1")]
           [mkServer (VStr "s1") (VTime 10) (VTime 20) (VStr "c")
              [client_part (VStr "k1")]]
           {["id" := VStr "s2"; "created_at" := VTime 1]}
           [server_row "s1" VNone] 2 "updated_at").
  - vm_compute; reflexivity.
  - intros k Hk Hin. apply list_elem_of_singleton in Hin.
    vm_compute in Hk, Hin. congruence.
  - vm_compute; reflexivity.
Defined.

(** The loop run from a dictionary whose keys the rows do not use leaves
    that dictionary in front, untouched. *)
Lemma group_step_frame d e row e' :
  (∀ k, row_id row = Some k → k ∉ d.*1) →
  group_step e row = Ok e' → group_step (d ++ e) row = Ok (d ++ e').
Proof.
  intros Hnew. unfold group_step.
  intros (k & Hk & H)%res_bind_Ok. rewrite Hk. simpl.
  assert (Hkd : k ∉ d.*1) by (by apply Hnew, getitem_Ok).
  apply res_bind_Ok in H as (e1 & He1 & H).
  apply res_bind_Ok in H as (s & Hs & [= <-]).
  rewrite od_mem_app_fresh by done.
  assert (Hd1 : (if od_mem k e then Ok (d ++ e)
     else
      (let! created_at := getitem row "created_at" in
       let! updated_at := getitem row "updated_at" in
       let! cluster_name := getitem row "cluster_name" in
       Ok (od_set k (mkServer k created_at updated_at cluster_name [])
             (d ++ e))))
    = Ok (d ++ e1)).
  { destruct (od_mem k e); [by injection He1 as <-|].
    apply res_bind_Ok in He1 as (c & -> & He1).
    apply res_bind_Ok in He1 as (u & -> & He1).
    apply res_bind_Ok in He1 as (n & -> & [= <-]). simpl.
    by rewrite od_set_app_fresh. }
  rewrite Hd1. simpl. unfold od_getitem in *.
  rewrite od_get_app_fresh by done.
  destruct (od_get k e1); [|done]. injection Hs as ->. simpl.
  by rewrite od_set_app_fresh.
Qed.

Lemma for_each_group_step_frame d rows e e' :
  Forall (λ row, ∀ k, row_id row = Some k → k ∉ d.*1) rows →
  for_each group_step e rows = Ok e' →
  for_each group_step (d ++ e) rows = Ok (d ++ e').
Proof.
  intros Hall. revert e. induction Hall as [|row rows Hrow _ IH]; intros e.
  - by intros [= <-].
  - simpl. intros (e1 & He1 & Hrest)%res_bind_Ok.
    rewrite (group_step_frame _ _ _ _ Hrow He1). simpl. by apply IH.
Qed.

(** X4: grouping distributes over concatenation of row sequences that share
    no server id: the result is the servers of the first sequence followed
    by the servers of the second. *)
Theorem get_servers_on_cluster_app_disjoint
    (rows1 rows2 : list Row) (out1 out2 : list Server) :
  get_servers_on_cluster rows1 = Ok out1 →
  get_servers_on_cluster rows2 = Ok out2 →
  (∀ k, k ∈ row_ids rows1 → k ∉ row_ids rows2) →
  get_servers_on_cluster (rows1 ++ rows2) = Ok (out1 ++ out2).
Proof.
  intros (d1 & Hd1 & -> & (_ & Hkeys & _) & _ & _)%get_servers_on_cluster_state.
  intros (d2 & Hd2 & -> & _)%get_servers_on_cluster_state Hdisj.
  unfold get_servers_on_cluster. rewrite for_each_app, Hd1. simpl.
  rewrite <-(app_nil_r d1) at 1.
  rewrite (for_each_group_step_frame d1 rows2 [] d2); [| |done].
  - simpl. unfold od_values. by rewrite fmap_app.
  - apply Forall_forall. intros row Hrow k Hk Hin.
    rewrite Hkeys in Hin. apply (proj1 (elem_of_first_seen _ _)) in Hin.
    apply (Hdisj k Hin). apply list_elem_of_omap. eauto.
Qed.

Lemma get_servers_on_cluster_app_disjoint_witness :
  get_servers_on_cluster [server_row "s1" (VStr "k1"); server_row "s1" (VStr "k2")]
  = Ok [sample_server1] ∧
  get_servers_on_cluster [server_row "s2" (VStr "k3")] = Ok [sample_server2] ∧
  get_servers_on_cluster
    ([server_row "s1" (VStr "k1"); server_row "s1" (VStr "k2")]
     ++ [server_row "s2" (VStr "k3")])
  = Ok ([sample_server1] ++ [sample_server2]).
Proof.
  split; [vm_compute; reflexivity|]. split; [vm_compute; reflexivity|].
  apply get_servers_on_cluster_app_disjoint;
    [vm_compute; reflexivity|vm_compute; reflexivity|].
  intros k Hin1 Hin2. apply list_elem_of_singleton in Hin2.
  apply elem_of_cons in Hin1 as [Hk|Hin1];
    [|apply list_elem_of_singleton in Hin1];
    vm_compute in *; congruence.
Defined.

Lemma od_get_app {K V} `{!EqDecision K} (k : K) (d e : list (K * V)) :
  od_get k (d ++ e)
  = match od_get k d with Some v => Some v | None => od_get k e end.
Proof.
  induction d as [|[k0 v0] d IH]; csimpl; [done|].
  by destruct (decide (k = k0)).
Qed.

Lemma od_set_sum {K V} `{!EqDecision K} (g : V → nat) (k : K) (v v0 : V) d :
  od_get k d = Some v0 →
  sum_list_with (λ kv, g kv.2) (od_set k v d) + g v0
  = sum_list_with (λ kv, g kv.2) d + g v.
Proof.
  induction d as [|[k1 v1] d IH]; csimpl; [done|].
  destruct (decide (k = k1)) as [->|]; csimpl.
  - intros [= ->]. lia.
  - intros Hget. specialize (IH Hget). lia.
Qed.

Lemma sum_list_with_fmap {A B} (f : B → nat) (g : A → B) (l : list A) :
  sum_list_with f (g <$> l) = sum_list_with (f ∘ g) l.
Proof. induction l as [|x l IH]; csimpl; [done|]. by rewrite IH. Qed.

(** The two ways an iteration of the loop can succeed. *)
Lemma group_step_Ok_inv d row d' :
  group_step d row = Ok d' →
  ∃ k, row_id row = Some k ∧
    ((∃ s, od_get k d = Some s ∧
        d' = od_set k (append_client (client_of_row row) s) d) ∨
     ((k ∉ d.*1) ∧ ∃ c u n,
        row !! "created_at" = Some c ∧ row !! "updated_at" = Some u ∧
        row !! "cluster_name" = Some n ∧
        d' = d ++ [(k, mkServer k c u n [client_of_row row])])).
Proof.
  intros H. pose proof H as H'. unfold group_step in H'.
  apply res_bind_Ok in H' as (k & Hk%getitem_Ok & H').
  exists k. split; [done|].
  destruct (decide (k ∈ d.*1)) as [Hin|Hnin].
  - destruct (od_get_is_Some _ _ Hin) as [s Hs]. left. exists s.
    split; [done|]. rewrite (group_step_seen _ _ k s) in H by done.
    by injection H.
  - right. split; [done|].
    assert (Hmem : od_mem k d = false).
    { apply not_true_is_false. by intros ?%od_mem_spec. }
    rewrite Hmem in H'. apply res_bind_Ok in H' as (d1 & Hd1 & _).
    apply res_bind_Ok in Hd1 as (c & Hc%getitem_Ok & Hd1).
    apply res_bind_Ok in Hd1 as (u & Hu%getitem_Ok & Hd1).
    apply res_bind_Ok in Hd1 as (n & Hn%getitem_Ok & _).
    exists c, u, n. split_and!; [done..|].
    rewrite (group_step_fresh _ _ k c u n) in H by done. by injection H.
Qed.

(** X5: the [created_at], [updated_at] and [cluster_name] of a returned
    server are those of the first input row with its id; what later rows of
    that id hold in these columns is ignored. *)
Theorem get_servers_on_cluster_fields_first_row
    (rows : list Row) (out : list Server) (s : Server) :
  get_servers_on_cluster rows = Ok out →
  s ∈ out →
  ∃ i row,
    list_find (λ row, row_id row = Some (srv_id s)) rows = Some (i, row) ∧
    row !! "created_at" = Some (srv_created_at s) ∧
    row !! "updated_at" = Some (srv_updated_at s) ∧
    row !! "cluster_name" = Some (srv_cluster_name s).
Proof.
  intros (d & Hd & -> & _ & Hnd & Hid)%get_servers_on_cluster_state Hs.
  apply list_elem_of_fmap in Hs as ([k s'] & -> & Hin). simpl.
  pose proof (proj1 (Forall_forall _ _) Hid _ Hin) as Hk. simpl in Hk.
  rewrite Hk. apply (od_get_of_elem _ _ _ Hnd) in Hin.
  clear Hnd Hid Hk. revert k s' Hin.
  revert rows d Hd.
  apply (for_each_invariant group_step (λ rows d,
    grouped rows d ∧
    ∀ k s, od_get k d = Some s → ∃ i row,
      list_find (λ row, row_id row = Some k) rows = Some (i, row) ∧
      row !! "created_at" = Some (srv_created_at s) ∧
      row !! "updated_at" = Some (srv_updated_at s) ∧
      row !! "cluster_name" = Some (srv_cluster_name s))
    []); [split; [apply grouped_nil|done]|].
  intros rows d row d' [Hg IH] Hstep.
  split; [by eapply group_step_grouped|].
  assert (Hold : ∀ k s, od_get k d = Some s → ∃ i row0,
      list_find (λ row, row_id row = Some k) (rows ++ [row]) = Some (i, row0) ∧
      row0 !! "created_at" = Some (srv_created_at s) ∧
      row0 !! "updated_at" = Some (srv_updated_at s) ∧
      row0 !! "cluster_name" = Some (srv_cluster_name s)).
  { intros k s Hs. destruct (IH k s Hs) as (i & row0 & Hf & ?).
    exists i, row0. split; [|done]. by apply list_find_app_l. }
  apply group_step_Ok_inv in Hstep
    as (k & Hk & [(s0 & Hs0 & ->)|(Hnin & c & u & n & Hc & Hu & Hn & ->)]).
  - intros k' s'. rewrite od_get_set.
    destruct (decide (k' = k)) as [->|]; [|by apply Hold].
    intros [= <-]. exact (Hold k s0 Hs0).
  - intros k' s'. rewrite od_get_app.
    destruct (od_get k' d) as [s1|] eqn:Hs1; [intros [= <-]; by apply Hold|].
    simpl. destruct (decide (k' = k)) as [->|]; [|done]. intros [= <-].
    exists (0 + length rows), row. split; [|done].
    rewrite list_find_app_r.
    + simpl. by rewrite decide_True.
    + apply list_find_None, Forall_forall. intros r Hr Hrk. apply Hnin.
      destruct Hg as (_ & -> & _). apply elem_of_first_seen.
      apply list_elem_of_omap. eauto.
Qed.

Lemma get_servers_on_cluster_fields_first_row_witness :
  get_servers_on_cluster
    [server_row "s1" (VStr "k1");
     <["created_at" := VTime 99]> (server_row "s1" (VStr "k2"))]
  = Ok [sample_server1] ∧
  ∃ i row,
    list_find (λ row, row_id row = Some (srv_id sample_server1))
      [server_row "s1" (VStr "k1");
       <["created_at" := VTime 99]> (server_row "s1" (VStr "k2"))]
    = Some (i, row) ∧
    row !! "created_at" = Some (srv_created_at sample_server1) ∧
    row !! "updated_at" = Some (srv_updated_at sample_server1) ∧
    row !! "cluster_name" = Some (srv_cluster_name sample_server1).
Proof.
  split; [vm_compute; reflexivity|].
  apply (get_servers_on_cluster_fields_first_row _ [sample_server1]);
    [vm_compute; reflexivity|apply list_elem_of_singleton; reflexivity].
Defined.

(** X6: no row is lost and none is counted twice: the client lists of the
    returned servers hold, in total, as many entries as there are input
    rows. *)
Theorem get_servers_on_cluster_client_total
    (rows : list Row) (out : list Server) :
  get_servers_on_cluster rows = Ok out →
  client_total out = length rows.
Proof.
  unfold get_servers_on_cluster. intros (d & Hd & [= <-])%res_bind_Ok.
  unfold client_total, od_values. rewrite sum_list_with_fmap.
  revert rows d Hd.
  apply (for_each_invariant group_step (λ rows d,
    sum_list_with (λ kv : value * Server, length (srv_clients kv.2)) d
    = length rows) []); [done|].
  intros rows d row d' IH Hstep. rewrite length_app. simpl.
  apply group_step_Ok_inv in Hstep
    as (k & Hk & [(s0 & Hs0 & ->)|(Hnin & c & u & n & _ & _ & _ & ->)]).
  - pose proof (od_set_sum (λ s, length (srv_clients s)) k
      (append_client (client_of_row row) s0) s0 d Hs0) as Hsum.
    simpl in Hsum. rewrite length_app in Hsum. simpl in Hsum. lia.
  - rewrite sum_list_with_app. simpl. lia.
Qed.

Lemma get_servers_on_cluster_client_total_witness :
  get_servers_on_cluster sample_result = Ok [sample_server1; sample_server2] ∧
  client_total [sample_server1; sample_server2] = length sample_result.
Proof.
  split; [vm_compute; reflexivity|].
  apply get_servers_on_cluster_client_total. vm_compute; reflexivity.
Defined.

(** X7: every client entry of a returned server is the [client_] part of an
    input row with that server's id: it has the row's value at each key that
    starts with [client_] and no other key, so no server column shows up in
    it. *)
Theorem get_servers_on_cluster_client_keys
    (rows : list Row) (out : list Server) (s : Server) (c : Row) :
  get_servers_on_cluster rows = Ok out →
  s ∈ out →
  c ∈ srv_clients s →
  ∃ row, row ∈ rows ∧ row_id row = Some (srv_id s) ∧
    ∀ key, c !! key = if startswith key "client_" then row !! key else None.
Proof.
  intros (_ & _ & Hcl)%get_servers_on_cluster_Ok Hs.
  rewrite (proj1 (Forall_forall _ _) Hcl s Hs).
  intros (row & -> & [Hid Hrow]%list_elem_of_filter)%list_elem_of_fmap.
  exists row. split_and!; [done..|]. intros key. unfold client_of_row.
  destruct (startswith key "client_") eqn:Hpre.
  - apply option_eq. intros v. rewrite map_lookup_filter_Some. simpl.
    rewrite Hpre. split; [by intros [? _]|by split].
  - apply map_lookup_filter_None. right. intros v _. simpl. rewrite Hpre.
    intros [].
Qed.

Lemma get_servers_on_cluster_client_keys_witness :
  get_servers_on_cluster sample_result = Ok [sample_server1; sample_server2] ∧
  ∃ row, row ∈ sample_result ∧ row_id row = Some (srv_id sample_server2) ∧
    ∀ key, client_part (VStr "k3") !! key
           = if startswith key "client_" then row !! key else None.
Proof.
  split; [vm_compute; reflexivity|].
  apply (get_servers_on_cluster_client_keys sample_result
           [sample_server1; sample_server2] sample_server2);
    [vm_compute; reflexivity| |apply list_elem_of_singleton; reflexivity].
  apply elem_of_cons; right. apply list_elem_of_singleton; reflexivity.
Defined.

(** * Further properties of the user building *)

Lemma user_step_frame acc clients row clients' :
  user_step clients row = Ok clients' →
  user_step (acc ++ clients) row = Ok (acc ++ clients').
Proof.
  unfold user_step. intros (v & -> & H)%res_bind_Ok. simpl.
  destruct (truthy v); [|by injection H as <-].
  apply res_bind_Ok in H as (? & -> & H).
  apply res_bind_Ok in H as (? & -> & H).
  apply res_bind_Ok in H as (? & -> & H).
  apply res_bind_Ok in H as (? & -> & [= <-]). simpl. by rewrite app_assoc.
Qed.

Lemma for_each_user_step_frame acc rows clients clients' :
  for_each user_step clients rows = Ok clients' →
  for_each user_step (acc ++ clients) rows = Ok (acc ++ clients').
Proof.
  revert clients. induction rows as [|row rows IH]; intros clients; simpl.
  - by intros [= <-].
  - intros (c1 & Hc1 & Hrest)%res_bind_Ok.
    rewrite (user_step_frame _ _ _ _ Hc1). simpl. by apply IH.
Qed.

(** The identity columns of the first row and the loop over all rows. *)
Lemma process_user_data_cons row0 rest :
  process_user_data (row0 :: rest)
  = let! id := getitem row0 "id" in
    let! name := getitem row0 "name" in
    let! email := getitem row0 "email" in
    let! emailVerified := getitem row0 "emailVerified" in
    let! image := getitem row0 "image" in
    let! clients := for_each user_step [] (row0 :: rest) in
    Ok (Some (mkUser id name email emailVerified image clients)).
Proof. reflexivity. Qed.

Lemma process_user_data_loop rows u :
  process_user_data rows = Ok (Some u) →
  for_each user_step [] rows = Ok (usr_clients u).
Proof.
  destruct rows as [|row0 rest]; [done|]. rewrite process_user_data_cons.
  intros H. do 5 (apply res_bind_Ok in H as (? & _ & H)).
  apply res_bind_Ok in H as (clients & Hcl & [= <-]). done.
Qed.

(** X8: building distributes over concatenation.  When both row sequences
    build a user, their concatenation builds the user of the first sequence
    with the clients of the first followed by the clients of the second; the
    identity columns of the second sequence play no part. *)
Theorem process_user_data_app (rows rows' : list Row) (u u' : User) :
  process_user_data rows = Ok (Some u) →
  process_user_data rows' = Ok (Some u') →
  process_user_data (rows ++ rows')
  = Ok (Some (mkUser (usr_id u) (usr_name u) (usr_email u)
                (usr_emailVerified u) (usr_image u)
                (usr_clients u ++ usr_clients u'))).
Proof.
  intros Hu Hu'. pose proof (process_user_data_loop _ _ Hu) as Hcl.
  pose proof (process_user_data_loop _ _ Hu') as Hcl'.
  destruct rows as [|row0 rest]; [done|].
  rewrite <-app_comm_cons, process_user_data_cons.
  rewrite process_user_data_cons in Hu.
  apply res_bind_Ok in Hu as (id & -> & Hu).
  apply res_bind_Ok in Hu as (name & -> & Hu).
  apply res_bind_Ok in Hu as (email & -> & Hu).
  apply res_bind_Ok in Hu as (ev & -> & Hu).
  apply res_bind_Ok in Hu as (image & -> & Hu).
  apply res_bind_Ok in Hu as (clients & _ & [= <-]).
  cbn [res_bind usr_clients usr_id usr_name usr_email usr_emailVerified
       usr_image] in *.
  change (row0 :: rest ++ rows') with ((row0 :: rest) ++ rows').
  rewrite for_each_app, Hcl. cbn [res_bind].
  rewrite <-(app_nil_r clients) at 1.
  by rewrite (for_each_user_step_frame _ _ _ _ Hcl').
Qed.

Lemma process_user_data_app_witness :
  process_user_data [user_row (VStr "k1") "A"]
  = Ok (Some (sample_user [sample_client (VStr "k1") "A"])) ∧
  process_user_data [user_row (VStr "k2") "B"]
  = Ok (Some (mkUser (VStr "u1") (VStr "B") (VStr "a@example.org") VNone VNone
                [sample_client (VStr "k2") "B"])) ∧
  process_user_data ([user_row (VStr "k1") "A"] ++ [user_row (VStr "k2") "B"])
  = Ok (Some (sample_user [sample_client (VStr "k1") "A";
                           sample_client (VStr "k2") "B"])).
Proof.
  split; [vm_compute; reflexivity|]. split; [vm_compute; reflexivity|].
  apply (process_user_data_app [user_row (VStr "k1") "A"]
           [user_row (VStr "k2") "B"]
           (sample_user [sample_client (VStr "k1") "A"])
           (mkUser (VStr "u1") (VStr "B") (VStr "a@example.org") VNone VNone
              [sample_client (VStr "k2") "B"]));
    vm_compute; reflexivity.
Defined.

(** X9: a row after the first whose [client_id] is false under [if] has no
    effect at all: with or without it the function returns the same user or
    raises the same exception, whatever the other columns of the row are. *)
Theorem process_user_data_skip_false_row
    (pre : list Row) (row : Row) (post : list Row) (v : value) :
  pre ≠ [] →
  row !! "client_id" = Some v →
  truthy v = false →
  process_user_data (pre ++ row :: post) = process_user_data (pre ++ post).
Proof.
  intros Hpre Hv Hf. destruct pre as [|row0 rest]; [done|].
  assert (Hskip : ∀ cs,
    for_each user_step cs (row :: post) = for_each user_step cs post).
  { intros cs. cbn [for_each]. unfold user_step at 1, getitem.
    rewrite Hv. cbn [res_bind]. by rewrite Hf. }
  assert (Hloop : for_each user_step [] ((row0 :: rest) ++ row :: post)
                  = for_each user_step [] ((row0 :: rest) ++ post)).
  { rewrite !for_each_app.
    destruct (for_each user_step [] (row0 :: rest)) as [cs|e];
      cbn [res_bind]; [apply Hskip|done]. }
  rewrite <-!app_comm_cons, !process_user_data_cons.
  change (row0 :: rest ++ row :: post) with ((row0 :: rest) ++ row :: post).
  by rewrite Hloop.
Qed.

Lemma process_user_data_skip_false_row_witness :
  [user_row (VStr "k1") "A"] ≠ [] ∧
  ({["client_id" := VInt 0]} : Row) !! "client_id" = Some (VInt 0) ∧
  truthy (VInt 0) = false ∧
  process_user_data ([user_row (VStr "k1") "A"]
                     ++ {["client_id" := VInt 0]} :: [user_row VNone "B"])
  = process_user_data ([user_row (VStr "k1") "A"] ++ [user_row VNone "B"]).
Proof.
  split; [discriminate|]. split; [vm_compute; reflexivity|].
  split; [reflexivity|].
  apply (process_user_data_skip_false_row _ _ _ (VInt 0));
    [discriminate|vm_compute; reflexivity|reflexivity].
Defined.

Lemma length_filter_eq_Forall {A} (P : A → Prop) `{!∀ x, Decision (P x)}
    (l : list A) :
  length (filter P l) = length l ↔ Forall P l.
Proof.
  induction l as [|x l IH]; [by split; [constructor|]|].
  rewrite filter_cons, Forall_cons. destruct (decide (P x)) as [HP|HP]; simpl.
  - rewrite <-IH. split; [intros [= ?]; by split|intros [_ ->]; done].
  - pose proof (length_filter P l). split; [lia|by intros [? _]].
Qed.

(** X10: the user has at most one client per input row, and exactly one per
    row precisely when every row's [client_id] is true under [if]. *)
Theorem process_user_data_client_bound (rows : list Row) (u : User) :
  process_user_data rows = Ok (Some u) →
  length (usr_clients u) ≤ length rows ∧
  (length (usr_clients u) = length rows ↔ Forall (λ row, has_client row) rows).
Proof.
  intros (_ & _ & _ & _ & _ & _ & _ & _ & _ & Hcl)%process_user_data_Some.
  apply Forall2_length in Hcl. rewrite <-Hcl. split.
  - apply length_filter.
  - apply length_filter_eq_Forall.
Qed.

Lemma process_user_data_client_bound_witness :
  process_user_data [user_row (VStr "k1") "A"; user_row VNone "A"]
  = Ok (Some (sample_user [sample_client (VStr "k1") "A"])) ∧
  length [sample_client (VStr "k1") "A"]
  ≤ length [user_row (VStr "k1") "A"; user_row VNone "A"].
Proof.
  split; [vm_compute; reflexivity|].
  apply (process_user_data_client_bound
           [user_row (VStr "k1") "A"; user_row VNone "A"]
           (sample_user [sample_client (VStr "k1") "A"])).
  vm_compute; reflexivity.
Defined.

(** X11: the first row that lacks a column the loop reads stops the function
    with a [KeyError] for that column; no user is returned.  The rows before
    [row] build a user, [row] has no [client_id] or a true one, and [c] is
    the first of [client_id], [name], [user_id], [created_at], [updated_at]
    that [row] lacks. *)
Theorem process_user_data_missing_column
    (pre : list Row) (u : User) (row : Row) (post : list Row)
    (i : nat) (c : string) :
  process_user_data pre = Ok (Some u) →
  (∀ v, row !! "client_id" = Some v → truthy v = true) →
  list_find (λ c, row !! c = None) client_columns = Some (i, c) →
  process_user_data (pre ++ row :: post) = Raise (KeyError (VStr c)).
Proof.
  intros Hu Htrue (Hi & Hc & Hbefore)%list_find_Some.
  pose proof (process_user_data_loop _ _ Hu) as Hcl.
  destruct pre as [|row0 rest]; [done|].
  rewrite process_user_data_cons in Hu.
  apply res_bind_Ok in Hu as (id & Hid & Hu).
  apply res_bind_Ok in Hu as (name & Hname & Hu).
  apply res_bind_Ok in Hu as (email & Hemail & Hu).
  apply res_bind_Ok in Hu as (ev & Hev & Hu).
  apply res_bind_Ok in Hu as (image & Himage & _).
  rewrite <-app_comm_cons, process_user_data_cons.
  rewrite Hid, Hname, Hemail, Hev, Himage. cbn [res_bind].
  change (row0 :: rest ++ row :: post) with ((row0 :: rest) ++ row :: post).
  rewrite for_each_app, Hcl. cbn [res_bind for_each].
  assert (Hstep : user_step (usr_clients u) row = Raise (KeyError (VStr c)));
    [|by rewrite Hstep].
  unfold user_step, getitem.
  destruct i as [|i]; [injection Hi as <-; by rewrite Hc|].
  destruct (row !! "client_id") as [v|] eqn:Hv;
    [|exfalso; apply (Hbefore 0 "client_id"); [done|lia|done]].
  cbn [res_bind]. rewrite (Htrue v eq_refl).
  destruct i as [|i]; [injection Hi as <-; by rewrite Hc|].
  destruct (row !! "name") eqn:?;
    [|exfalso; apply (Hbefore 1 "name"); [done|lia|done]].
  destruct i as [|i]; [injection Hi as <-; by rewrite Hc|].
  destruct (row !! "user_id") eqn:?;
    [|exfalso; apply (Hbefore 2 "user_id"); [done|lia|done]].
  destruct i as [|i]; [injection Hi as <-; by rewrite Hc|].
  destruct (row !! "created_at") eqn:?;
    [|exfalso; apply (Hbefore 3 "created_at"); [done|lia|done]].
  destruct i as [|i]; [injection Hi as <-; by rewrite Hc|].
  destruct i; discriminate.
Qed.

Lemma process_user_data_missing_column_witness :
  process_user_data [user_row VNone "A"] = Ok (Some (sample_user [])) ∧
  process_user_data
    ([user_row VNone "A"]
     ++ {["client_id" := VStr "k2"; "name" := VStr "B"]} :: [])
  = Raise (KeyError (VStr "user_id")).
Proof.
  split; [vm_compute; reflexivity|].
  apply (process_user_data_missing_column [user_row VNone "A"]
           (sample_user []) {["client_id" := VStr "k2"; "name" := VStr "B"]}
           [] 2 "user_id").
  - vm_compute; reflexivity.
  - intros v Hv. vm_compute in Hv. injection Hv as <-. reflexivity.
  - vm_compute; reflexivity.
Defined.

(** X12: every client of the returned user has an [id] that is true under
    [if]; in particular no client has a null [id]. *)
Theorem process_user_data_client_ids_true (rows : list Row) (u : User) :
  process_user_data rows = Ok (Some u) →
  Forall (λ c, truthy (cl_id c) = true ∧ cl_id c ≠ VNone) (usr_clients u).
Proof.
  intros (_ & _ & _ & _ & _ & _ & _ & _ & _ & Hcl)%process_user_data_Some.
  assert (Hrows : Forall (λ row, has_client row) (filter has_client rows)).
  { apply Forall_forall. by intros row [? _]%list_elem_of_filter. }
  induction Hcl as [|row c l k Hc _ IH]; [constructor|].
  apply Forall_cons in Hrows as [Hrow Hrows]. constructor; [|by apply IH].
  destruct Hc as (Hid & _). unfold has_client in Hrow. rewrite Hid in Hrow.
  split; [by apply Is_true_true|]. intros Hnone. by rewrite Hnone in Hrow.
Qed.

Lemma process_user_data_client_ids_true_witness :
  process_user_data [user_row (VStr "k1") "A"; user_row VNone "A"]
  = Ok (Some (sample_user [sample_client (VStr "k1") "A"])) ∧
  Forall (λ c, truthy (cl_id c) = true ∧ cl_id c ≠ VNone)
    [sample_client (VStr "k1") "A"].
Proof.
  split; [vm_compute; reflexivity|].
  apply (process_user_data_client_ids_true
           [user_row (VStr "k1") "A"; user_row VNone "A"]
           (sample_user [sample_client (VStr "k1") "A"])).
  vm_compute; reflexivity.
Defined.

(** X13: the client [name] is read from the same column as the user [name].
    When the first row has a true [client_id], the first client of the
    returned user bears the user's name. *)
Theorem process_user_data_first_client_name
    (row0 : Row) (rest : list Row) (u : User) :
  process_user_data (row0 :: rest) = Ok (Some u) →
  has_client row0 = true →
  ∃ c clients, usr_clients u = c :: clients ∧ cl_name c = usr_name u.
Proof.
  intros (r & ? & [= <- <-] & _ & Hname & _ & _ & _ & _ & Hcl)%process_user_data_Some
    Hhas.
  rewrite filter_has_client_cons, Hhas in Hcl. simpl in Hcl.
  apply Forall2_cons_inv_l in Hcl as (c & clients & (_ & Hc & _) & _ & ->).
  exists c, clients. split; [done|]. congruence.
Qed.

Lemma process_user_data_first_client_name_witness :
  process_user_data [user_row (VStr "k1") "A"; user_row (VStr "k2") "B"]
  = Ok (Some (sample_user [sample_client (VStr "k1") "A";
                           sample_client (VStr "k2") "B"])) ∧
  has_client (user_row (VStr "k1") "A") = true ∧
  ∃ c clients,
    [sample_client (VStr "k1") "A"; sample_client (VStr "k2") "B"]
    = c :: clients ∧
    cl_name c = VStr "A".
Proof.
  split; [vm_compute; reflexivity|]. split; [vm_compute; reflexivity|].
  apply (process_user_data_first_client_name (user_row (VStr "k1") "A")
           [user_row (VStr "k2") "B"]
           (sample_user [sample_client (VStr "k1") "A";
                         sample_client (VStr "k2") "B"]));
    vm_compute; reflexivity.
Defined.

(** * Properties of the routes *)

Lemma get_client_status_lookup m client_id :
  get_client_status m client_id !! "created"
  = Some (match m !! client_id with Some _ => "Yes" | None => "No" end) ∧
  get_client_status m client_id !! "running"
  = Some (match m !! client_id with
          | Some c => if String.eqb (container_status c) "running"
                      then "Yes" else "No"
          | None => "No"
          end).
Proof.
  unfold get_client_status. destruct (m !! client_id) as [c|].
  - by rewrite lookup_insert_ne, !lookup_insert_eq.
  - by rewrite lookup_insert_ne, !lookup_insert_eq.
Qed.

(** X14: the status of a client always has exactly the keys [created] and
    [running]; [created] is [Yes] exactly when the client has a container,
    [running] is [Yes] exactly when that container's status is [running],
    and so a client is never reported running without being reported
    created. *)
Theorem get_client_status_consistent
    (client_docker_map : gmap string Container) (client_id : string) :
  let status := get_client_status client_docker_map client_id in
  dom status = {["created"; "running"]} ∧
  (status !! "created" = Some "Yes" ↔ is_Some (client_docker_map !! client_id)) ∧
  (status !! "running" = Some "Yes" ↔
   ∃ c, client_docker_map !! client_id = Some c ∧
        container_status c = "running") ∧
  (status !! "running" = Some "Yes" → status !! "created" = Some "Yes").
Proof.
  intros status.
  destruct (get_client_status_lookup client_docker_map client_id)
    as [Hcreated Hrunning].
  fold status in Hcreated, Hrunning. rewrite Hcreated, Hrunning.
  split.
  { unfold status, get_client_status.
    destruct (client_docker_map !! client_id);
      rewrite !dom_insert_L, dom_empty_L; set_solver. }
  destruct (client_docker_map !! client_id) as [c|].
  - destruct (String.eqb_spec (container_status c) "running") as [Heq|Hne].
    + split_and!; [split; eauto|split; eauto|done].
    + split_and!; [split; eauto|split; [done|]|done].
      by intros (? & [= <-] & ?).
  - split_and!; [split; [done|by intros [? ?]]|split; [done|]|done].
    by intros (? & ? & ?).
Qed.

Lemma get_client_status_consistent_witness :
  get_client_status {["c1" := mkContainer "box" "exited"]} "c1" !! "running"
  ≠ Some "Yes" ∧
  get_client_status {["c1" := mkContainer "box" "exited"]} "c1" !! "created"
  = Some "Yes".
Proof.
  destruct (get_client_status_consistent
              {["c1" := mkContainer "box" "exited"]} "c1")
    as (_ & Hcreated & Hrunning & _).
  split.
  - intros (c & Hc & Hst)%Hrunning. vm_compute in Hc. injection Hc as <-.
    discriminate Hst.
  - apply Hcreated. eexists. vm_compute. reflexivity.
Defined.

(** X15: the three routes agree on which clients have a container.  A client
    id is listed by [get_mappings] exactly when its status says [created],
    and exactly when [execute_query] does not answer with the not-found
    message; when it is listed, the answer of [execute_query] names the
    container that [get_mappings] lists for it. *)
Theorem routes_agree
    (client_docker_map : gmap string Container) (client_id query : string) :
  (is_Some (get_mappings client_docker_map !! client_id) ↔
   get_client_status client_docker_map client_id !! "created" = Some "Yes") ∧
  (get_mappings client_docker_map !! client_id = None ↔
   execute_query client_docker_map client_id query
   = String.concat "" ["No container found for client_id '"; client_id; "'"]) ∧
  (∀ name, get_mappings client_docker_map !! client_id = Some name →
   execute_query client_docker_map client_id query
   = String.concat "" ["Executed query '"; query; "' on container '"; name;
                       "' for client_id '"; client_id; "'"]).
Proof.
  destruct (get_client_status_lookup client_docker_map client_id)
    as [Hcreated _].
  rewrite Hcreated. unfold get_mappings, execute_query. rewrite lookup_fmap.
  destruct (client_docker_map !! client_id) as [c|]; simpl.
  - split_and!.
    + split; eauto.
    + split; [done|]. intros [=].
    + by intros name [= <-].
  - split_and!.
    + split; [by intros [? ?]|done].
    + done.
    + done.
Qed.

Lemma routes_agree_witness :
  get_mappings {["c1" := mkContainer "box" "running"]} !! "c1" = Some "box" ∧
  execute_query {["c1" := mkContainer "box" "running"]} "c1" "ls"
  = "Executed query 'ls' on container 'box' for client_id 'c1'".
Proof.
  split; [vm_compute; reflexivity|].
  apply (proj2 (proj2 (routes_agree
                         {["c1" := mkContainer "box" "running"]} "c1" "ls"))
           "box").
  vm_compute; reflexivity.
Defined.
